(** * Smart parking system (src/app.py): pricing, billing, statistics,
    alerts and booking, as a shallow embedding in Rocq.

    Python floats are modelled by exact rationals [Q]; Python ints by [Z]
    or [nat]; the module-level dicts and lists by explicit state. *)

From Stdlib Require Import QArith Qround ZArith List String Ascii Bool Lia.
From Stdlib Require Import Sorted DecimalNat.
Import ListNotations.
Open Scope Q_scope.

(* ------------------------------------------------------------------ *)
(** ** Configuration (app.py, lines 19-24)                             *)

(** The module-level constants, gathered in one record so that a property
    can be stated for the configuration in the source or for any other. *)
Record config := {
  TOTAL_SLOTS : nat;
  HOURLY_RATE : Q;
  FREE_HOURS : Z;
  PENALTY_RATE : Q;
  PEAK_HOUR_MULTIPLIER : Q;
  PEAK_HOURS : list (nat * nat)
}.

(** The values in the source. *)
Definition app_config : config := {|
  TOTAL_SLOTS := 100;
  HOURLY_RATE := 50;
  FREE_HOURS := 2;
  PENALTY_RATE := 100;
  PEAK_HOUR_MULTIPLIER := 3 # 2;
  PEAK_HOURS := [(7, 10); (17, 20)]%nat
|}.

(** One reading of [datetime.datetime.now()]: the instant in seconds and
    its local hour of day ([.hour]). *)
Record clock := {
  now_s : Q;
  now_hour : nat
}.

(* ------------------------------------------------------------------ *)
(** ** Python numeric helpers                                           *)

Definition Qltb (x y : Q) : bool := negb (Qle_bool y x).

(** [int(x)] on a float truncates toward zero. *)
Definition py_int (x : Q) : Z :=
  if Qle_bool 0 x then Qfloor x else (- Qfloor (- x))%Z.

(** [x % 1] on a float: the result has the sign of the divisor, so it lies
    in [0, 1). *)
Definition py_mod1 (x : Q) : Q := x - inject_Z (Qfloor x).

(* ------------------------------------------------------------------ *)
(** ** Rate engine: [is_peak_hour], [get_dynamic_rate] (lines 89-98)    *)

Fixpoint in_peak_windows (windows : list (nat * nat)) (current_hour : nat) : bool :=
  match windows with
  | [] => false
  | (start, end_) :: rest =>
      if (Nat.leb start current_hour && Nat.ltb current_hour end_)%bool
      then true
      else in_peak_windows rest current_hour
  end.

Definition is_peak_hour (cfg : config) (clk : clock) : bool :=
  in_peak_windows (PEAK_HOURS cfg) (now_hour clk).

Definition get_dynamic_rate (cfg : config) (clk : clock) : Q :=
  if is_peak_hour cfg clk
  then HOURLY_RATE cfg * PEAK_HOUR_MULTIPLIER cfg
  else HOURLY_RATE cfg.

(* ------------------------------------------------------------------ *)
(** ** Slots: the entries of [parking_data] (lines 43-54)               *)

Inductive slot_status := available | occupied.

Record slot := {
  status : slot_status;
  entry_time : option Q;        (** seconds; [None] is Python's [None] *)
  zone : string;
  vehicle_type : option string;
  license_plate : option string;
  customer_id : option string;
  is_reserved : bool;
  maintenance : bool
}.

(** [parking_data]: a dict, iterated in insertion order. *)
Definition parking_data := list (string * slot).

(** The upper-cased ["Status"] column of the data frame. *)
Inductive row_status := AVAILABLE | OCCUPIED | MAINTENANCE.

Definition row_status_eqb (a b : row_status) : bool :=
  match a, b with
  | AVAILABLE, AVAILABLE | OCCUPIED, OCCUPIED | MAINTENANCE, MAINTENANCE => true
  | _, _ => false
  end.

(** The columns of a row of [get_parking_data] that the computations read
    (the display strings are left out). *)
Record row := {
  slot_id : string;
  row_zone : string;
  row_status_of : row_status;
  _revenue : Q;
  _fine : Q;
  _duration_hours : Q;
  _is_reserved : bool;
  _maintenance : bool
}.

(** The billing block of [get_parking_data] (lines 198-213), for a slot
    whose status is ["occupied"] and whose entry time is set:
    (duration_hours, revenue, fine). *)
Definition bill (cfg : config) (clk : clock) (entry : Q) : Q * Q * Q :=
  let duration_seconds := now_s clk - entry in
  let duration_hours := duration_seconds / 3600 in
  let total_hours :=
    (py_int duration_hours + (if Qltb 0 (py_mod1 duration_hours) then 1 else 0))%Z in
  let current_rate := get_dynamic_rate cfg clk in
  let revenue := inject_Z total_hours * current_rate in
  let fine :=
    if Qltb (inject_Z (FREE_HOURS cfg)) duration_hours
    then inject_Z (total_hours - FREE_HOURS cfg) * PENALTY_RATE cfg
    else 0 in
  (duration_hours, revenue, fine).

(** One iteration of the loop of [get_parking_data]. *)
Definition parking_row (cfg : config) (clk : clock) (sid : string) (d : slot) : row :=
  let st :=
    if maintenance d then MAINTENANCE
    else match status d with occupied => OCCUPIED | available => AVAILABLE end in
  let '(duration_hours, revenue, fine) :=
    match st, entry_time d with
    | OCCUPIED, Some e => bill cfg clk e
    | _, _ => (0, 0, 0)
    end in
  {| slot_id := sid; row_zone := zone d; row_status_of := st;
     _revenue := revenue; _fine := fine; _duration_hours := duration_hours;
     _is_reserved := is_reserved d; _maintenance := maintenance d |}.

Definition get_parking_data (cfg : config) (clk : clock) (pd : parking_data) : list row :=
  map (fun '(sid, d) => parking_row cfg clk sid d) pd.

(* ------------------------------------------------------------------ *)
(** ** Statistics: [get_statistics] (lines 237-275)                    *)

Record statistics := {
  st_occupied : nat;
  st_available : nat;
  st_reserved : nat;
  st_maintenance : nat;
  occupancy_rate : Q;
  total_revenue : Q;
  total_fines : Q;
  total_earnings : Q;
  avg_duration : Q;
  overstay_count : nat;
  turnover_rate : Q;
  avg_wait : Q
}.

Definition count_rows (p : row -> bool) (df : list row) : nat :=
  List.length (filter p df).

Definition sum_column (col : row -> Q) (df : list row) : Q :=
  fold_left (fun acc r => acc + col r) df 0.

Definition has_status (st : row_status) (r : row) : bool :=
  row_status_eqb (row_status_of r) st.

(** [turnover_draw] and [wait_draw] are the values returned by the two
    [random.uniform] calls. An empty frame ([pd.DataFrame([])]) has no
    ['Status'] column, so [df['Status']] raises [KeyError]; the division
    [occupied / TOTAL_SLOTS] raises [ZeroDivisionError] when the divisor
    is 0. Both failures give [None]. *)
Definition get_statistics (cfg : config) (turnover_draw wait_draw : Q)
    (df : list row) : option statistics :=
  let occupied := count_rows (has_status OCCUPIED) df in
  let available := count_rows (has_status AVAILABLE) df in
  let reserved := count_rows _is_reserved df in
  let maintenance := count_rows _maintenance df in
  if Nat.eqb (List.length df) 0 then None else
  match TOTAL_SLOTS cfg with
  | O => None
  | _ =>
    let occupancy_rate := (inject_Z (Z.of_nat occupied)
                           / inject_Z (Z.of_nat (TOTAL_SLOTS cfg))) * 100 in
    let total_revenue := sum_column _revenue df in
    let total_fines := sum_column _fine df in
    let total_earnings := total_revenue + total_fines in
    let occupied_df := filter (has_status OCCUPIED) df in
    let avg_duration :=
      match List.length occupied_df with
      | O => 0
      | n => sum_column _duration_hours occupied_df / inject_Z (Z.of_nat n)
      end in
    let overstay_count := count_rows (fun r => Qltb 0 (_fine r)) df in
    let avg_wait := if Nat.ltb 20 available then 0 else wait_draw in
    Some {| st_occupied := occupied; st_available := available;
            st_reserved := reserved; st_maintenance := maintenance;
            occupancy_rate := occupancy_rate; total_revenue := total_revenue;
            total_fines := total_fines; total_earnings := total_earnings;
            avg_duration := avg_duration; overstay_count := overstay_count;
            turnover_rate := turnover_draw; avg_wait := avg_wait |}
  end.

(* ------------------------------------------------------------------ *)
(** ** Alerts: [check_alerts] (lines 134-175)                          *)

Inductive alert_type := critical | warning | success | info.

(** The emoji of the ["icon"] field. *)
Inductive alert_icon :=
  | icon_rotating_light   (* occupancy above 85% *)
  | icon_warning_sign     (* occupancy above 70% *)
  | icon_alarm_clock      (* overstay *)
  | icon_money_bag        (* revenue milestone *)
  | icon_chart_increasing (* peak-hour pricing *).

(** The data each f-string of the ["message"] field formats. *)
Inductive alert_message :=
  | msg_critical (rate : Q)
  | msg_high_demand (rate : Q)
  | msg_overstay (count : nat) (fines : Q)
  | msg_milestone (earnings : Q)
  | msg_peak_pricing (current_rate : Q).

Record alert := {
  alert_kind : alert_type;
  icon : alert_icon;
  message : alert_message;
  time : Q   (** [datetime.now()] formatted as %H:%M:%S *)
}.

(** [check_alerts df stats] rebinds the global [alerts] to a fresh list:
    the previous value is the last argument and is not read. *)
Definition check_alerts (cfg : config) (clk : clock) (df : list row)
    (stats : statistics) (alerts : list alert) : list alert :=
  let t := now_s clk in
  let occupancy_alerts :=
    if Qltb 85 (occupancy_rate stats) then
      [{| alert_kind := critical; icon := icon_rotating_light;
          message := msg_critical (occupancy_rate stats); time := t |}]
    else if Qltb 70 (occupancy_rate stats) then
      [{| alert_kind := warning; icon := icon_warning_sign;
          message := msg_high_demand (occupancy_rate stats); time := t |}]
    else [] in
  let overstay_alerts :=
    if Nat.ltb 0 (overstay_count stats) then
      [{| alert_kind := warning; icon := icon_alarm_clock;
          message := msg_overstay (overstay_count stats) (total_fines stats);
          time := t |}]
    else [] in
  let milestone_alerts :=
    if Qltb 10000 (total_earnings stats) then
      [{| alert_kind := success; icon := icon_money_bag;
          message := msg_milestone (total_earnings stats); time := t |}]
    else [] in
  let peak_alerts :=
    if is_peak_hour cfg clk then
      [{| alert_kind := info; icon := icon_chart_increasing;
          message := msg_peak_pricing (get_dynamic_rate cfg clk); time := t |}]
    else [] in
  occupancy_alerts ++ overstay_alerts ++ milestone_alerts ++ peak_alerts.

(* ------------------------------------------------------------------ *)
(** ** Booking identifiers: [f"BK{str(booking_counter).zfill(4)}"]    *)

(** [str(n)] for a non-negative int: its decimal digits, most significant
    first, as [Nat.to_uint] lays them out. *)
Fixpoint uint_to_string (d : Decimal.uint) : string :=
  match d with
  | Decimal.Nil => EmptyString
  | Decimal.D0 d => String "0" (uint_to_string d)
  | Decimal.D1 d => String "1" (uint_to_string d)
  | Decimal.D2 d => String "2" (uint_to_string d)
  | Decimal.D3 d => String "3" (uint_to_string d)
  | Decimal.D4 d => String "4" (uint_to_string d)
  | Decimal.D5 d => String "5" (uint_to_string d)
  | Decimal.D6 d => String "6" (uint_to_string d)
  | Decimal.D7 d => String "7" (uint_to_string d)
  | Decimal.D8 d => String "8" (uint_to_string d)
  | Decimal.D9 d => String "9" (uint_to_string d)
  end.

Definition py_str (n : nat) : string := uint_to_string (Nat.to_uint n).

Fixpoint zeros (k : nat) : string :=
  match k with
  | O => EmptyString
  | S k => String "0" (zeros k)
  end.

(** [s.zfill(w)] on a string of digits: pad with '0' on the left up to
    width [w]; a longer string is returned as is. *)
Definition zfill (w : nat) (s : string) : string :=
  append (zeros (w - String.length s)) s.

Definition format_booking_id (counter : nat) : string :=
  append "BK" (zfill 4 (py_str counter)).

(** Reading an identifier back: the digits after "BK" as a number. *)
Definition digit_value (c : ascii) : option nat :=
  let n := nat_of_ascii c in
  if (Nat.leb 48 n && Nat.leb n 57)%bool then Some (n - 48)%nat else None.

Fixpoint parse_digits (s : string) (acc : nat) : option nat :=
  match s with
  | EmptyString => Some acc
  | String c s' =>
      match digit_value c with
      | Some v => parse_digits s' (v + 10 * acc)%nat
      | None => None
      end
  end.

Definition booking_number (id : string) : option nat :=
  match id with
  | String "B" (String "K" digits) => parse_digits digits 0
  | _ => None
  end.

(* ------------------------------------------------------------------ *)
(** ** Bookings and the application state                              *)

Inductive booking_status := active | completed.

Record booking := {
  bk_id : string;
  bk_name : string;
  bk_phone : string;
  bk_vehicle : string;
  bk_license : string;
  bk_slot : string;
  bk_zone : option string;        (** only the API stores ['zone'] *)
  bk_duration : Q;               (** a Python int (API) or number (form) *)
  bk_cost : Q;
  bk_timestamp : Q;
  bk_status : booking_status;
  bk_checkout_time : option Q     (** ['checkout_time'], absent until checkout *)
}.

(** The module-level mutable state: [parking_data], [bookings] and
    [booking_counter]. ([activity_log] is write-only and left out.) *)
Record world := {
  parking : parking_data;
  bookings : list booking;
  booking_counter : nat
}.

(** [parking_data[sid][...] = ...]: update the entry under key [sid]. *)
Definition update_slot (sid : string) (f : slot -> slot) (pd : parking_data) : parking_data :=
  map (fun '(k, d) => if String.eqb k sid then (k, f d) else (k, d)) pd.

Definition slot_exists (sid : string) (pd : parking_data) : bool :=
  existsb (fun '(k, _) => String.eqb k sid) pd.

(** Python truthiness of an optional string (None and "" are false). *)
Definition truthy_str (o : option string) : bool :=
  match o with
  | Some s => negb (String.eqb s EmptyString)
  | None => false
  end.

Definition set_reserved (b : bool) (d : slot) : slot :=
  {| status := status d; entry_time := entry_time d; zone := zone d;
     vehicle_type := vehicle_type d; license_plate := license_plate d;
     customer_id := customer_id d; is_reserved := b;
     maintenance := maintenance d |}.

(** Lines 409-411: reserve the slot and record the vehicle. *)
Definition reserve_for (vehicle license : string) (d : slot) : slot :=
  {| status := status d; entry_time := entry_time d; zone := zone d;
     vehicle_type := Some vehicle; license_plate := Some license;
     customer_id := customer_id d; is_reserved := true;
     maintenance := maintenance d |}.

(** Lines 483-486: free the slot of a checked-out booking. *)
Definition free_slot (d : slot) : slot :=
  {| status := available; entry_time := entry_time d; zone := zone d;
     vehicle_type := None; license_plate := None;
     customer_id := customer_id d; is_reserved := false;
     maintenance := maintenance d |}.

(** [round(x, 2)]: the nearest multiple of 1/100, ties to even. *)
Definition py_round2 (x : Q) : Q :=
  let y := x * 100 in
  let f := Qfloor y in
  let r := y - inject_Z f in
  let n :=
    if Qltb r (1 # 2) then f
    else if Qltb (1 # 2) r then (f + 1)%Z
    else if Z.even f then f else (f + 1)%Z in
  inject_Z n / 100.

(* ------------------------------------------------------------------ *)
(** ** [create_booking_api] (lines 359-424)                            *)

(** The JSON body: [None] when the key is absent. *)
Record api_request := {
  rq_name : option string;
  rq_phone : option string;
  rq_vehicle : option string;
  rq_license : option string;
  rq_duration : option Z;   (** the value after [int(...)] *)
  rq_zone : option string
}.

Inductive api_response :=
  | api_created (b : booking)
  | api_missing_fields      (* 400, 'Missing required fields...' *)
  | api_no_slots.           (* 400, 'No slots available' *)

(** Lines 373-380: the slot and the zone chosen among [available_df]. *)
Definition api_select (zone : option string) (available_df : list row)
    : option (string * string) :=
  match available_df with
  | [] => None
  | first :: _ =>
      match zone with
      | Some z =>
          if truthy_str zone then
            match filter (fun r => String.eqb (row_zone r) z) available_df with
            | zr :: _ => Some (slot_id zr, z)
            | [] => Some (slot_id first, row_zone first)
            end
          else Some (slot_id first, row_zone first)
      | None => Some (slot_id first, row_zone first)
      end
  end.

Definition create_booking_api (cfg : config) (clk : clock) (rq : api_request)
    (w : world) : world * api_response :=
  match rq_name rq, rq_phone rq, rq_vehicle rq, rq_license rq, rq_duration rq with
  | Some name, Some phone, Some vehicle, Some license, Some duration =>
      let df := get_parking_data cfg clk (parking w) in
      let available_df := filter (has_status AVAILABLE) df in
      match api_select (rq_zone rq) available_df with
      | None => (w, api_no_slots)
      | Some (slot, selected_zone) =>
          let cost := inject_Z duration * get_dynamic_rate cfg clk in
          let booking_id := format_booking_id (booking_counter w) in
          let b := {| bk_id := booking_id; bk_name := name; bk_phone := phone;
                      bk_vehicle := vehicle; bk_license := license;
                      bk_slot := slot; bk_zone := Some selected_zone;
                      bk_duration := inject_Z duration; bk_cost := py_round2 cost;
                      bk_timestamp := now_s clk; bk_status := active;
                      bk_checkout_time := None |} in
          ({| parking := update_slot slot (reserve_for vehicle license) (parking w);
              bookings := bookings w ++ [b];
              booking_counter := S (booking_counter w) |},
           api_created b)
      end
  | _, _, _, _, _ => (w, api_missing_fields)
  end.

(* ------------------------------------------------------------------ *)
(** ** [confirm_booking], the dashboard form (lines 1033-1094)          *)

Record booking_form := {
  f_name : option string;
  f_phone : option string;
  f_vehicle : option string;
  f_license : option string;
  f_duration : option Q;   (** the [dcc.Input(type='number')] value, possibly fractional *)
  f_zone : option string
}.

Inductive form_response :=
  | form_confirmed (b : booking)
  | form_fill_fields     (* 'Please fill in all required fields' *)
  | form_no_slots        (* 'No slots available' *)
  | form_nothing.        (* '' *)

(** Python truthiness of an optional number (None and 0 are false). *)
Definition truthy_num (o : option Q) : bool :=
  match o with Some x => negb (Qeq_bool x 0) | None => false end.

(** Lines 1043-1057: the slot chosen among [available_df]. *)
Definition form_select (zone : option string) (available_df : list row) : option string :=
  let first_available :=
    match available_df with
    | r :: _ => Some (slot_id r)
    | [] => None
    end in
  match zone with
  | Some z =>
      if truthy_str zone then
        match filter (fun r => String.eqb (row_zone r) z) available_df with
        | zr :: _ => Some (slot_id zr)
        | [] => first_available
        end
      else first_available
  | None => first_available
  end.

Definition confirm_booking (cfg : config) (clk : clock) (n_clicks : nat)
    (form : booking_form) (w : world) : world * form_response :=
  if Nat.ltb 0 n_clicks then
    if (truthy_str (f_name form) && truthy_str (f_phone form)
        && truthy_str (f_vehicle form) && truthy_str (f_license form)
        && truthy_num (f_duration form))%bool then
      match f_name form, f_phone form, f_vehicle form, f_license form, f_duration form with
      | Some name, Some phone, Some vehicle, Some license, Some duration =>
          let df := get_parking_data cfg clk (parking w) in
          let available_df := filter (has_status AVAILABLE) df in
          match form_select (f_zone form) available_df with
          | None => (w, form_no_slots)
          | Some slot =>
              let estimated_cost := duration * get_dynamic_rate cfg clk in
              let booking_id := format_booking_id (booking_counter w) in
              let b := {| bk_id := booking_id; bk_name := name; bk_phone := phone;
                          bk_vehicle := vehicle; bk_license := license;
                          bk_slot := slot; bk_zone := None;
                          bk_duration := duration; bk_cost := estimated_cost;
                          bk_timestamp := now_s clk; bk_status := active;
                          bk_checkout_time := None |} in
              ({| parking := update_slot slot (set_reserved true) (parking w);
                  bookings := bookings w ++ [b];
                  booking_counter := S (booking_counter w) |},
               form_confirmed b)
          end
      | _, _, _, _, _ => (w, form_fill_fields)
      end
    else (w, form_fill_fields)
  else (w, form_nothing).

(* ------------------------------------------------------------------ *)
(** ** [checkout_booking_api] (lines 464-497)                          *)

Inductive checkout_response :=
  | checkout_done (b : booking)
  | checkout_not_found      (* 404, 'Booking not found' *)
  | checkout_not_active.    (* 400, 'Booking is not active' *)

(** [next((b for b in bookings if b['id'] == booking_id), None)] *)
Definition find_booking (booking_id : string) (bs : list booking) : option booking :=
  find (fun b => String.eqb (bk_id b) booking_id) bs.

(** The dict found by [next] is mutated in place: the first booking with
    that id is replaced. *)
Fixpoint replace_first (booking_id : string) (b' : booking) (bs : list booking)
    : list booking :=
  match bs with
  | [] => []
  | b :: rest =>
      if String.eqb (bk_id b) booking_id then b' :: rest
      else b :: replace_first booking_id b' rest
  end.

Definition complete_booking (clk : clock) (b : booking) : booking :=
  {| bk_id := bk_id b; bk_name := bk_name b; bk_phone := bk_phone b;
     bk_vehicle := bk_vehicle b; bk_license := bk_license b;
     bk_slot := bk_slot b; bk_zone := bk_zone b;
     bk_duration := bk_duration b; bk_cost := bk_cost b;
     bk_timestamp := bk_timestamp b; bk_status := completed;
     bk_checkout_time := Some (now_s clk) |}.

Definition checkout_booking_api (clk : clock) (booking_id : string) (w : world)
    : world * checkout_response :=
  match find_booking booking_id (bookings w) with
  | None => (w, checkout_not_found)
  | Some b =>
      match bk_status b with
      | completed => (w, checkout_not_active)
      | active =>
          let b' := complete_booking clk b in
          let pd := if slot_exists (bk_slot b) (parking w)
                    then update_slot (bk_slot b) free_slot (parking w)
                    else parking w in
          ({| parking := pd;
              bookings := replace_first booking_id b' (bookings w);
              booking_counter := booking_counter w |},
           checkout_done b')
      end
  end.

(* ------------------------------------------------------------------ *)
(** ** [simulate_parking_activity] (lines 101-119)                     *)

(** [t.strftime("%Y-%m-%d %H:%M:%S")], read back by [strptime]: the
    instant truncated to the whole second. *)
Definition to_timestamp (t : Q) : Q := inject_Z (Qfloor t).

(** Lines 108-112 (and 59-64): a slot taken by a vehicle. *)
Definition occupy_slot (entry : Q) (vehicle plate customer : string) (d : slot) : slot :=
  {| status := occupied; entry_time := Some entry; zone := zone d;
     vehicle_type := Some vehicle; license_plate := Some plate;
     customer_id := Some customer; is_reserved := is_reserved d;
     maintenance := maintenance d |}.

(** Lines 114-118: a slot released by the simulation. *)
Definition release_slot (d : slot) : slot :=
  {| status := available; entry_time := None; zone := zone d;
     vehicle_type := None; license_plate := None; customer_id := None;
     is_reserved := is_reserved d; maintenance := maintenance d |}.

(** The random values drawn for one slot: [random.random()],
    [random.uniform(0, 6)], [random.choice([...])] and the two
    [random.randint(1000, 9999)]. *)
Record sim_draw := {
  sd_roll : Q;
  sd_hours_back : Q;
  sd_vehicle : string;
  sd_plate_no : nat;
  sd_customer_no : nat
}.

Definition plate_of (n : nat) : string := append "MU-" (py_str n).
Definition customer_of (n : nat) : string := append "C" (py_str n).

(** The body of the loop for one slot. *)
Definition simulate_slot (clk : clock) (dr : sim_draw) (d : slot) : slot :=
  if maintenance d then d
  else if Qltb (sd_roll dr) (8 # 100) then
    match status d, is_reserved d with
    | available, false =>
        occupy_slot (to_timestamp (now_s clk - sd_hours_back dr * 3600))
          (sd_vehicle dr) (plate_of (sd_plate_no dr)) (customer_of (sd_customer_no dr)) d
    | _, _ => release_slot d
    end
  else d.

(** [draws sid] are the values drawn while visiting slot [sid]. *)
Definition simulate_parking_activity (clk : clock) (draws : string -> sim_draw)
    (pd : parking_data) : parking_data :=
  map (fun '(sid, d) => (sid, simulate_slot clk (draws sid) d)) pd.

(* ------------------------------------------------------------------ *)
(** ** The initial [parking_data] (lines 43-64)                        *)

Definition slot_key (i : nat) : string := append "P" (zfill 3 (py_str (S i))).

Definition zone_label (i : nat) : string :=
  append "Zone-" (String (ascii_of_nat (65 + i / 25)) EmptyString).

Definition initial_slot (i : nat) : slot :=
  {| status := available; entry_time := None; zone := zone_label i;
     vehicle_type := None; license_plate := None; customer_id := None;
     is_reserved := false; maintenance := false |}.

(** The values drawn for the i-th initially occupied slot:
    [random.uniform(0, 8)], the vehicle type and the two [randint]. *)
Record init_draw := {
  id_hours_back : Q;
  id_vehicle : string;
  id_plate_no : nat;
  id_customer_no : nat
}.

Definition initial_parking_data (clk : clock) (draws : nat -> init_draw) : parking_data :=
  fold_left
    (fun pd i =>
       let dr := draws i in
       update_slot (slot_key i)
         (occupy_slot (to_timestamp (now_s clk - id_hours_back dr * 3600))
            (id_vehicle dr) (plate_of (id_plate_no dr)) (customer_of (id_customer_no dr)))
         pd)
    (seq 0 35)
    (map (fun i => (slot_key i, initial_slot i)) (seq 0 (TOTAL_SLOTS app_config))).

Definition initial_world (clk : clock) (draws : nat -> init_draw) : world :=
  {| parking := initial_parking_data clk draws; bookings := []; booking_counter := 1 |}.

(* ------------------------------------------------------------------ *)
(** ** [predict_occupancy] (lines 122-131)                             *)

Inductive trend := increasing | decreasing | stable.

Definition predict_occupancy (clk : clock) : trend :=
  let current_hour := now_hour clk in
  if (Nat.leb 6 current_hour && Nat.ltb current_hour 10)%bool then increasing
  else if (Nat.leb 16 current_hour && Nat.ltb current_hour 20)%bool then increasing
  else if (Nat.leb 22 current_hour || Nat.ltb current_hour 6)%bool then decreasing
  else stable.

(* ------------------------------------------------------------------ *)
(** ** [get_zones_api] (lines 324-348)                                 *)

(** [round(x, 1)]: the nearest multiple of 1/10, ties to even. *)
Definition py_round1 (x : Q) : Q :=
  let y := x * 10 in
  let f := Qfloor y in
  let r := y - inject_Z f in
  let n :=
    if Qltb r (1 # 2) then f
    else if Qltb (1 # 2) r then (f + 1)%Z
    else if Z.even f then f else (f + 1)%Z in
  inject_Z n / 10.

Record zone_summary := {
  zs_zone : string;
  zs_available : nat;
  zs_total : nat;
  zs_percentage : Q
}.

Definition ZONES : list string := ["Zone-A"; "Zone-B"; "Zone-C"; "Zone-D"]%string.

Definition zone_entry (df : list row) (z : string) : zone_summary :=
  let zone_df := filter (fun r => String.eqb (row_zone r) z) df in
  let available := count_rows (has_status AVAILABLE) zone_df in
  let total := List.length zone_df in
  {| zs_zone := z; zs_available := available; zs_total := total;
     zs_percentage :=
       if Nat.ltb 0 total
       then py_round1 (inject_Z (Z.of_nat available) / inject_Z (Z.of_nat total) * 100)
       else 0 |}.

Definition get_zones_api (cfg : config) (clk : clock) (pd : parking_data) : list zone_summary :=
  map (zone_entry (get_parking_data cfg clk pd)) ZONES.

(* ------------------------------------------------------------------ *)
(** ** [get_bookings_api], [get_booking_api], the counts of [get_stats_api] *)

Definition booking_status_str (s : booking_status) : string :=
  match s with active => "active" | completed => "completed" end.

(** [GET /api/bookings?status=...] (lines 427-443). *)
Definition get_bookings_api (status_filter : option string) (bs : list booking) : list booking :=
  match status_filter with
  | Some f =>
      if truthy_str status_filter
      then filter (fun b => String.eqb (booking_status_str (bk_status b)) f) bs
      else bs
  | None => bs
  end.

(** [GET /api/booking/<id>] (lines 448-461): the booking, or 404. *)
Definition get_booking_api (booking_id : string) (bs : list booking) : option booking :=
  find_booking booking_id bs.

(** ['active_bookings'] of [get_stats_api] (line 523). *)
Definition active_bookings (bs : list booking) : nat :=
  List.length (filter (fun b => String.eqb (booking_status_str (bk_status b)) "active") bs).

(* ------------------------------------------------------------------ *)
(** ** [render_parking_grid]: the label of a slot (lines 1523-1538)    *)

Inductive grid_label := MAINT | RESERVED | GRID_OCCUPIED | FREE.

Definition grid_status_text (d : slot) : grid_label :=
  if maintenance d then MAINT
  else if is_reserved d then RESERVED
  else match status d with occupied => GRID_OCCUPIED | available => FREE end.

(* ------------------------------------------------------------------ *)
(** ** [collections.deque(maxlen=...)]: [activity_log] and the histories *)

(** [q.append(x)] on a deque bounded by [maxlen]: items beyond the bound
    are discarded from the left. *)
Definition deque_append {A : Type} (maxlen : nat) (q : list A) (x : A) : list A :=
  let q' := q ++ [x] in
  skipn (List.length q' - maxlen) q'.

Record log_entry := {
  le_timestamp : Q;
  le_user : string;
  le_action : string;
  le_details : string
}.

(** [log_activity] (lines 77-83), on [activity_log = deque(maxlen=100)]. *)
Definition log_activity (clk : clock) (log : list log_entry)
    (action details user : string) : list log_entry :=
  deque_append 100 log {| le_timestamp := to_timestamp (now_s clk); le_user := user;
                          le_action := action; le_details := details |}.

(* ------------------------------------------------------------------ *)
(** ** Sessions: [handle_login], [display_page], [logout]              *)

(** The dicts [ADMIN_CREDENTIALS] and [USER_ROLES] (lines 27-35). *)
Definition ADMIN_CREDENTIALS : list (string * string) :=
  [("admin", "admin123"); ("operator", "operator123")]%string.

Definition USER_ROLES : list (string * string) :=
  [("admin", "admin"); ("operator", "operator")]%string.

Fixpoint dict_get (d : list (string * string)) (k : string) : option string :=
  match d with
  | [] => None
  | (k', v) :: rest => if String.eqb k' k then Some v else dict_get rest k
  end.

(** The data of ['session-store']. *)
Record session := {
  authenticated : bool;
  user : option string;
  role : option string
}.

Definition logged_out : session := {| authenticated := false; user := None; role := None |}.

(** [dash.no_update] or a new value of an output. *)
Inductive update (A : Type) := no_update | set_to (a : A).
Arguments no_update {A}.
Arguments set_to {A} a.

Inductive login_message := msg_empty | msg_invalid_credentials | msg_enter_both.

(** [dash.callback_context.triggered]: which input fired, if any. *)
Inductive trigger := login_button | public_booking_button | other_input (id : string).

(** [handle_login] (lines 983-1006); [None] is a falsy [session_data].
    The three outputs are the pathname, the session and the error text. *)
Definition handle_login (triggered : option trigger) (username password : option string)
    (session_data : option session)
    : update string * update session * update login_message :=
  let session_data := match session_data with Some s => s | None => logged_out end in
  match triggered with
  | None => (no_update, no_update, no_update)
  | Some login_button =>
      match username, password with
      | Some u, Some p =>
          if (truthy_str username && truthy_str password)%bool then
            match dict_get ADMIN_CREDENTIALS u with
            | Some pw =>
                if String.eqb pw p then
                  let role := match dict_get USER_ROLES u with
                              | Some r => r | None => "viewer"%string end in
                  (set_to "/dashboard"%string,
                   set_to {| authenticated := true; user := Some u; role := Some role |},
                   set_to msg_empty)
                else (no_update, set_to session_data, set_to msg_invalid_credentials)
            | None => (no_update, set_to session_data, set_to msg_invalid_credentials)
            end
          else (no_update, set_to session_data, set_to msg_enter_both)
      | _, _ => (no_update, set_to session_data, set_to msg_enter_both)
      end
  | Some public_booking_button => (set_to "/booking"%string, set_to session_data, set_to msg_empty)
  | Some (other_input _) => (no_update, no_update, no_update)
  end.

Inductive page := login_page | public_booking_page | admin_app (s : session).

(** [display_page] (lines 954-969). *)
Definition display_page (pathname : option string) (session_data : option session) : page :=
  let session_data := match session_data with Some s => s | None => logged_out end in
  match pathname with
  | None => login_page
  | Some p =>
      if (String.eqb p "" || String.eqb p "/" || String.eqb p "/login")%bool then login_page
      else if String.eqb p "/booking" then public_booking_page
      else if String.eqb p "/dashboard" then
        if authenticated session_data then admin_app session_data else login_page
      else login_page
  end.

(** [logout] (lines 1179-1185): pathname and session outputs. *)
Definition logout (n_clicks : nat) (session_data : option session)
    : update string * update session :=
  if Nat.ltb 0 n_clicks then (set_to "/login"%string, set_to logged_out)
  else (no_update, no_update).

(* ------------------------------------------------------------------ *)
(** ** The running application                                          *)

(** One refresh of [render_tab_content] (lines 1194-1197): of the state
    in [world] it changes only [parking_data], through the simulation
    ([alerts] and the histories are not part of [world]). *)
Definition tick (clk : clock) (draws : string -> sim_draw) (w : world) : world :=
  {| parking := simulate_parking_activity clk draws (parking w);
     bookings := bookings w; booking_counter := booking_counter w |}.

(** The runs of the application from its start at clock [clk0]: the
    initialisation, then requests, form submissions, checkouts and
    dashboard refreshes, the clock never going back. [random.uniform(0, 8)]
    and [random.uniform(0, 6)] draw non-negative hours. *)
Inductive run (cfg : config) : clock -> world -> Prop :=
  | run_init clk draws :
      (forall i, 0 <= id_hours_back (draws i)) ->
      run cfg clk (initial_world clk draws)
  | run_wait clk clk' w :
      run cfg clk w -> now_s clk <= now_s clk' -> run cfg clk' w
  | run_api clk rq w :
      run cfg clk w -> run cfg clk (fst (create_booking_api cfg clk rq w))
  | run_form clk n_clicks form w :
      run cfg clk w -> run cfg clk (fst (confirm_booking cfg clk n_clicks form w))
  | run_checkout clk booking_id w :
      run cfg clk w -> run cfg clk (fst (checkout_booking_api clk booking_id w))
  | run_tick clk draws w :
      (forall sid, 0 <= sd_hours_back (draws sid)) ->
      run cfg clk w -> run cfg clk (tick clk draws w).

(** The invariant of [run]: the keys and zones of the initial dict, no
    slot under maintenance, a reserved slot never occupied, and an
    occupied slot entered at or before the current instant. *)
Definition slot_zones (pd : parking_data) : list (string * string) :=
  map (fun '(k, d) => (k, zone d)) pd.

Definition initial_zones : list (string * string) :=
  map (fun i => (slot_key i, zone_label i)) (seq 0 (TOTAL_SLOTS app_config)).

Definition slot_ok (t : Q) (d : slot) : Prop :=
  maintenance d = false /\
  (is_reserved d = true -> status d = available) /\
  (status d = occupied -> exists e, entry_time d = Some e /\ e <= t).

(** The raw status of the dict is "occupied". *)
Definition slot_occupied (d : slot) : bool :=
  match status d with occupied => true | available => false end.

Definition run_inv (clk : clock) (w : world) : Prop :=
  slot_zones (parking w) = initial_zones /\
  forall k d, In (k, d) (parking w) -> slot_ok (now_s clk) d.

(** No string occurs twice. *)
Fixpoint no_dup_strings (l : list string) : bool :=
  match l with
  | [] => true
  | x :: rest => negb (existsb (String.eqb x) rest) && no_dup_strings rest
  end.

(** 1 for an active booking, 0 for a completed one. *)
Definition active_ind (b : booking) : nat :=
  match bk_status b with active => 1 | completed => 0 end.

(** The ['available'] entry of [get_zones_api] for zone [z]. *)
Definition zone_available (z : string) (rows : list row) : nat :=
  count_rows (has_status AVAILABLE) (filter (fun r => String.eqb (row_zone r) z) rows).

(* ------------------------------------------------------------------ *)
(** ** Reading of the spec's billing formula                           *)

(** The billable hours as the spec writes them: [floor(d)] plus one when
    [d] has a nonzero fractional part. *)
Definition billable_hours_spec (d : Q) : Z :=
  (Qfloor d + (if Qeq_bool (d - inject_Z (Qfloor d)) 0 then 0 else 1))%Z.

(** The duration in hours that [get_parking_data] computes. *)
Definition duration_of (clk : clock) (entry : Q) : Q := (now_s clk - entry) / 3600.

(** A slot the loop of [get_parking_data] bills: raw status ["occupied"],
    not under maintenance, entry time set. *)
Definition occupied_slot (entry : Q) (zone_ : string) : slot :=
  {| status := occupied; entry_time := Some entry; zone := zone_;
     vehicle_type := Some "Car"%string; license_plate := Some "MU-1234"%string;
     customer_id := Some "C1234"%string; is_reserved := false; maintenance := false |}.

(** Slot lookup [parking_data.get(sid)]. *)
Definition get_slot (sid : string) (pd : parking_data) : option slot :=
  option_map snd (find (fun '(k, _) => String.eqb k sid) pd).

(** The rank of an alert in the order of [check_alerts]. *)
Definition alert_rank (i : alert_icon) : nat :=
  match i with
  | icon_rotating_light | icon_warning_sign => 0
  | icon_alarm_clock => 1
  | icon_money_bag => 2
  | icon_chart_increasing => 3
  end.

(* ------------------------------------------------------------------ *)
(** ** Billing lemmas                                                   *)

Lemma Qltb_true (x y : Q) : Qltb x y = true <-> x < y.
Proof.
  unfold Qltb. rewrite negb_true_iff.
  split; intro H.
  - apply Qnot_le_lt. intro H'. apply Qle_bool_iff in H'. congruence.
  - destruct (Qle_bool y x) eqn:E; [|reflexivity].
    apply Qle_bool_iff in E. exfalso. apply (Qlt_not_le x y); assumption.
Qed.

Lemma Qltb_false (x y : Q) : Qltb x y = false <-> y <= x.
Proof.
  unfold Qltb. rewrite negb_false_iff. apply Qle_bool_iff.
Qed.

Lemma py_int_nonneg (x : Q) : 0 <= x -> py_int x = Qfloor x.
Proof.
  intro H. unfold py_int. apply Qle_bool_iff in H. now rewrite H.
Qed.

(** On a non-negative duration the code's rounding is the spec's. *)
Lemma total_hours_nonneg (d : Q) : 0 <= d ->
  (py_int d + (if Qltb 0 (py_mod1 d) then 1 else 0))%Z = billable_hours_spec d.
Proof.
  intro H. rewrite py_int_nonneg by exact H.
  unfold billable_hours_spec, py_mod1.
  pose proof (Qfloor_le d) as Hle.
  destruct (Qeq_bool (d - inject_Z (Qfloor d)) 0) eqn:E.
  - apply Qeq_bool_iff in E.
    destruct (Qltb 0 (d - inject_Z (Qfloor d))) eqn:L; [|reflexivity].
    apply Qltb_true in L. rewrite E in L. discriminate L.
  - destruct (Qltb 0 (d - inject_Z (Qfloor d))) eqn:L; [reflexivity|].
    apply Qltb_false in L. exfalso.
    assert (Heq : d - inject_Z (Qfloor d) == 0).
    { apply Qle_antisym; [exact L|].
      apply (Qplus_le_l _ _ (inject_Z (Qfloor d))). ring_simplify. exact Hle. }
    apply Qeq_bool_iff in Heq. congruence.
Qed.

Lemma parking_row_occupied (cfg : config) (clk : clock) (sid : string)
    (d : slot) (e : Q) :
  status d = occupied -> maintenance d = false -> entry_time d = Some e ->
  let r := parking_row cfg clk sid d in
  let '(dh, rev, fine) := bill cfg clk e in
  row_status_of r = OCCUPIED /\ _duration_hours r = dh /\ _revenue r = rev /\ _fine r = fine.
Proof.
  intros Hs Hm He. unfold parking_row. rewrite Hs, Hm, He. simpl.
  destruct (bill cfg clk e) as [[dh rev] fine]. simpl. auto.
Qed.

Lemma Qfloor_unique (z : Z) (x : Q) :
  inject_Z z <= x -> x < inject_Z z + 1 -> Qfloor x = z.
Proof.
  intros H0 H1.
  pose proof (Qfloor_le x) as Hle. pose proof (Qlt_floor x) as Hlt.
  rewrite inject_Z_plus in Hlt.
  assert (A : (Qfloor x < z + 1)%Z).
  { rewrite Zlt_Qlt, inject_Z_plus. apply (Qle_lt_trans _ x); assumption. }
  assert (B : (z < Qfloor x + 1)%Z).
  { rewrite Zlt_Qlt, inject_Z_plus. apply (Qle_lt_trans _ x); assumption. }
  lia.
Qed.

(** A duration in (-1, 0) hours, i.e. an entry time less than an hour in
    the future, is billed as one hour. *)
Lemma total_hours_small_negative (d : Q) : -1 < d -> d < 0 ->
  (py_int d + (if Qltb 0 (py_mod1 d) then 1 else 0))%Z = 1%Z.
Proof.
  intros H1 H2. unfold py_int, py_mod1.
  destruct (Qle_bool 0 d) eqn:E.
  { apply Qle_bool_iff in E. exfalso. apply (Qlt_not_le d 0); assumption. }
  rewrite (Qfloor_unique 0 (- d)).
  2: { apply (Qopp_le_compat d 0). apply Qlt_le_weak. exact H2. }
  2: { setoid_replace (inject_Z 0 + 1) with (- -1) by reflexivity.
       apply Qopp_lt_compat. exact H1. }
  rewrite (Qfloor_unique (-1) d).
  2: { apply Qlt_le_weak. exact H1. }
  2: { exact H2. }
  replace (Qltb 0 (d - inject_Z (-1))) with true; [reflexivity|].
  symmetry. apply Qltb_true.
  setoid_replace (d - inject_Z (-1)) with (d + 1) by (unfold inject_Z; ring).
  apply (Qplus_lt_l _ _ (-1)). ring_simplify. exact H1.
Qed.

(** The clocks of the examples: noon (off-peak) and 8 o'clock (peak), at
    the instant 36000 s. *)
Definition clock_noon : clock := {| now_s := 36000; now_hour := 12 |}.
Definition clock_eight : clock := {| now_s := 36000; now_hour := 8 |}.

(* ------------------------------------------------------------------ *)
(** ** Billing                                                          *)

(** C1: for an occupied slot with an entry time and a non-negative duration
    [d], the overstay fine is 0 when [d <= FREE_HOURS], and when
    [d > FREE_HOURS] it is [(billableHours - FREE_HOURS) * PENALTY_RATE]
    with [billableHours = floor(d) + (1 if d has a fractional part)]. *)
Theorem overstay_fine_spec (cfg : config) (clk : clock) (sid : string) (d : slot) (e : Q)
    (Hs : status d = occupied) (Hm : maintenance d = false)
    (He : entry_time d = Some e) (Hd : 0 <= duration_of clk e) :
  (duration_of clk e <= inject_Z (FREE_HOURS cfg) ->
     _fine (parking_row cfg clk sid d) = 0) /\
  (inject_Z (FREE_HOURS cfg) < duration_of clk e ->
     _fine (parking_row cfg clk sid d)
     = inject_Z (billable_hours_spec (duration_of clk e) - FREE_HOURS cfg)
       * PENALTY_RATE cfg).
Proof.
  pose proof (parking_row_occupied cfg clk sid d e Hs Hm He) as Hrow.
  unfold bill in Hrow. fold (duration_of clk e) in Hrow.
  destruct Hrow as (_ & _ & _ & ->).
  rewrite (total_hours_nonneg _ Hd).
  split; intro H.
  - replace (Qltb (inject_Z (FREE_HOURS cfg)) (duration_of clk e)) with false;
      [reflexivity|].
    symmetry. apply Qltb_false. exact H.
  - replace (Qltb (inject_Z (FREE_HOURS cfg)) (duration_of clk e)) with true;
      [reflexivity|].
    symmetry. apply Qltb_true. exact H.
Qed.

Lemma overstay_fine_spec_witness :
  0 <= duration_of clock_noon (36000 - 7800) /\
  _fine (parking_row app_config clock_noon "P001" (occupied_slot (36000 - 7800) "Zone-A"))
  = inject_Z (billable_hours_spec (duration_of clock_noon (36000 - 7800)) - 2) * 100.
Proof.
  split.
  - unfold duration_of. simpl. unfold Qle. simpl. lia.
  - refine (proj2 (overstay_fine_spec app_config clock_noon "P001"
             (occupied_slot (36000 - 7800) "Zone-A") (36000 - 7800)
             eq_refl eq_refl eq_refl _) _).
    + unfold duration_of. simpl. unfold Qle. simpl. lia.
    + unfold duration_of. simpl. unfold Qlt. simpl. lia.
Defined.

(** C4 (counterexample): an occupied slot whose entry time is half an hour
    in the future is not reported with duration 0, fee 0 and fine 0: the
    duration is -1/2 hour and the fee is one hour at the current rate. *)
Lemma future_entry_reported_nonzero :
  ~ (_duration_hours (parking_row app_config clock_noon "P001"
                        (occupied_slot (36000 + 1800) "Zone-A")) == 0 /\
     _revenue (parking_row app_config clock_noon "P001"
                 (occupied_slot (36000 + 1800) "Zone-A")) == 0 /\
     _fine (parking_row app_config clock_noon "P001"
              (occupied_slot (36000 + 1800) "Zone-A")) == 0).
Proof.
  intros (H1 & H2 & H3). vm_compute in H2. discriminate H2.
Qed.

(** C4 (amended): for an occupied slot whose entry time lies in the future,
    the duration is not clamped: it is the negative [(now - entry) / 3600];
    the fine is 0 (for a non-negative [FREE_HOURS]); and an entry less than
    one hour in the future is billed one hour at the current rate. *)
Theorem future_entry_billing (cfg : config) (clk : clock) (sid : string) (d : slot) (e : Q)
    (Hs : status d = occupied) (Hm : maintenance d = false)
    (He : entry_time d = Some e) (Hfut : now_s clk < e)
    (Hfree : (0 <= FREE_HOURS cfg)%Z) :
  _duration_hours (parking_row cfg clk sid d) = duration_of clk e /\
  duration_of clk e < 0 /\
  _fine (parking_row cfg clk sid d) = 0 /\
  (e - now_s clk < 3600 ->
     _revenue (parking_row cfg clk sid d) == get_dynamic_rate cfg clk).
Proof.
  pose proof (parking_row_occupied cfg clk sid d e Hs Hm He) as Hrow.
  unfold bill in Hrow. fold (duration_of clk e) in Hrow.
  destruct Hrow as (_ & -> & -> & ->).
  assert (Hneg : duration_of clk e < 0).
  { unfold duration_of. apply (Qmult_lt_r _ _ 3600); [reflexivity|].
    setoid_replace ((now_s clk - e) / 3600 * 3600) with (now_s clk - e)
      by (field; discriminate).
    apply (Qplus_lt_l _ _ e). ring_simplify. exact Hfut. }
  split; [reflexivity|]. split; [exact Hneg|]. split.
  - replace (Qltb (inject_Z (FREE_HOURS cfg)) (duration_of clk e)) with false;
      [reflexivity|].
    symmetry. apply Qltb_false. apply Qlt_le_weak.
    apply (Qlt_le_trans _ 0); [exact Hneg|].
    change 0 with (inject_Z 0). rewrite <- Zle_Qle. exact Hfree.
  - intro Hhour.
    rewrite (total_hours_small_negative (duration_of clk e)); [|clear Hneg|exact Hneg].
    + simpl. ring.
    + unfold duration_of. apply (Qmult_lt_r _ _ 3600); [reflexivity|].
      setoid_replace ((now_s clk - e) / 3600 * 3600) with (now_s clk - e)
        by (field; discriminate).
      apply (Qplus_lt_l _ _ (e + 3600)). ring_simplify.
      apply (Qplus_lt_l _ _ (- now_s clk)). ring_simplify.
      setoid_replace (e + - now_s clk) with (e - now_s clk) by ring.
      exact Hhour.
Qed.

Lemma future_entry_billing_witness :
  36000 < 36000 + 1800 /\ (0 <= 2)%Z /\
  _revenue (parking_row app_config clock_noon "P001"
              (occupied_slot (36000 + 1800) "Zone-A")) == 50.
Proof.
  split; [unfold Qlt; simpl; lia|]. split; [lia|].
  refine (proj2 (proj2 (proj2 (future_entry_billing app_config clock_noon "P001"
             (occupied_slot (36000 + 1800) "Zone-A") (36000 + 1800)
             eq_refl eq_refl eq_refl _ _))) _).
  - unfold Qlt. simpl. lia.
  - simpl. lia.
  - unfold Qlt. simpl. lia.
Defined.

(** An entry time less than one hour in the future gives a duration in
    (-1, 0). *)
Lemma duration_within_hour_ahead (clk : clock) (e : Q) :
  now_s clk < e -> e - now_s clk < 3600 ->
  -1 < duration_of clk e /\ duration_of clk e < 0.
Proof.
  intros Hfut Hhour. unfold duration_of. split.
  - apply (Qmult_lt_r _ _ 3600); [reflexivity|].
    setoid_replace ((now_s clk - e) / 3600 * 3600) with (now_s clk - e)
      by (field; discriminate).
    apply (Qplus_lt_l _ _ (e + 3600)). ring_simplify.
    apply (Qplus_lt_l _ _ (- now_s clk)). ring_simplify.
    setoid_replace (e + - now_s clk) with (e - now_s clk) by ring.
    exact Hhour.
  - apply (Qmult_lt_r _ _ 3600); [reflexivity|].
    setoid_replace ((now_s clk - e) / 3600 * 3600) with (now_s clk - e)
      by (field; discriminate).
    apply (Qplus_lt_l _ _ e). ring_simplify. exact Hfut.
Qed.

(** C6 (counterexample): for an entry time half an hour in the future, the
    fee is not [billableHours * rate] with the spec's rounding (which gives
    0 hours): the code bills one hour. The same holds for every entry time
    less than one hour ahead, at every clock. *)
Lemma fee_future_entry_not_rounded_up :
  ~ (_revenue (parking_row app_config clock_noon "P001"
                 (occupied_slot (36000 + 1800) "Zone-A"))
     == inject_Z (billable_hours_spec (duration_of clock_noon (36000 + 1800)))
        * get_dynamic_rate app_config clock_noon) /\
  (forall (clk : clock) (e : Q), now_s clk < e -> e - now_s clk < 3600 ->
     billable_hours_spec (duration_of clk e) = 0%Z /\
     ~ (_revenue (parking_row app_config clk "P001" (occupied_slot e "Zone-A"))
        == inject_Z (billable_hours_spec (duration_of clk e))
           * get_dynamic_rate app_config clk)).
Proof.
  split; [intro H; vm_compute in H; discriminate H|].
  intros clk e Hfut Hhour.
  destruct (duration_within_hour_ahead clk e Hfut Hhour) as [H1 H2].
  assert (Hfl : Qfloor (duration_of clk e) = (-1)%Z).
  { apply Qfloor_unique.
    - apply Qlt_le_weak. exact H1.
    - setoid_replace (inject_Z (-1) + 1) with 0 by reflexivity. exact H2. }
  assert (Hspec : billable_hours_spec (duration_of clk e) = 0%Z).
  { unfold billable_hours_spec. rewrite Hfl.
    destruct (Qeq_bool (duration_of clk e - inject_Z (-1)) 0) eqn:Heq; [|reflexivity].
    exfalso. apply Qeq_bool_eq in Heq.
    apply (Qlt_irrefl 0). rewrite <- Heq at 2.
    apply (Qplus_lt_l _ _ (inject_Z (-1))).
    setoid_replace (duration_of clk e - inject_Z (-1) + inject_Z (-1)) with (duration_of clk e)
      by ring.
    exact H1. }
  split; [exact Hspec|].
  pose proof (parking_row_occupied app_config clk "P001" (occupied_slot e "Zone-A") e
                eq_refl eq_refl eq_refl) as Hrow.
  unfold bill in Hrow. fold (duration_of clk e) in Hrow.
  destruct Hrow as (_ & _ & -> & _).
  rewrite (total_hours_small_negative _ H1 H2), Hspec.
  unfold get_dynamic_rate. destruct (is_peak_hour app_config clk);
    cbn [HOURLY_RATE PEAK_HOUR_MULTIPLIER app_config]; intro H; discriminate H.
Qed.

(** C6 (amended): for an occupied slot whose entry time is not in the
    future, the fee is [billableHours * rate], [billableHours] being the
    duration rounded up unless it is a whole number of hours, and [rate]
    the dynamic rate of the clock at which the row is computed (the entry
    time enters only through the duration); for an entry time less than
    one hour in the future the fee is one hour at that rate; a slot
    occupied 2h10m at rate 50 is billed 3 hours, 150. *)
Theorem parking_fee_spec (cfg : config) (clk : clock) (sid : string) (d : slot) (e : Q)
    (Hs : status d = occupied) (Hm : maintenance d = false)
    (He : entry_time d = Some e) :
  (e <= now_s clk ->
     _revenue (parking_row cfg clk sid d)
     = inject_Z (billable_hours_spec (duration_of clk e)) * get_dynamic_rate cfg clk) /\
  (now_s clk < e -> e - now_s clk < 3600 ->
     _revenue (parking_row cfg clk sid d) == 1 * get_dynamic_rate cfg clk) /\
  billable_hours_spec (duration_of clock_noon (36000 - 7800)) = 3%Z /\
  _revenue (parking_row app_config clock_noon "P001"
              (occupied_slot (36000 - 7800) "Zone-A")) == 150.
Proof.
  pose proof (parking_row_occupied cfg clk sid d e Hs Hm He) as Hrow.
  unfold bill in Hrow. fold (duration_of clk e) in Hrow.
  destruct Hrow as (_ & _ & -> & _).
  split; [|split; [|split; vm_compute; reflexivity]].
  - intro Hd. rewrite total_hours_nonneg; [reflexivity|].
    unfold duration_of.
    apply (Qmult_le_r _ _ 3600); [reflexivity|].
    setoid_replace ((now_s clk - e) / 3600 * 3600) with (now_s clk - e)
      by (field; discriminate).
    apply (Qplus_le_l _ _ e). ring_simplify. exact Hd.
  - intros Hfut Hhour.
    destruct (duration_within_hour_ahead clk e Hfut Hhour) as [H1 H2].
    rewrite (total_hours_small_negative _ H1 H2). reflexivity.
Qed.

Lemma parking_fee_spec_witness :
  status (occupied_slot (36000 + 1800) "Zone-A") = occupied /\
  maintenance (occupied_slot (36000 + 1800) "Zone-A") = false /\
  entry_time (occupied_slot (36000 + 1800) "Zone-A") = Some (36000 + 1800) /\
  _revenue (parking_row app_config clock_eight "P001"
              (occupied_slot (36000 - 5400) "Zone-A"))
  = inject_Z (billable_hours_spec (duration_of clock_eight (36000 - 5400)))
    * get_dynamic_rate app_config clock_eight /\
  _revenue (parking_row app_config clock_eight "P001"
              (occupied_slot (36000 + 1800) "Zone-A"))
  == 1 * get_dynamic_rate app_config clock_eight.
Proof.
  split; [reflexivity|]. split; [reflexivity|]. split; [reflexivity|]. split.
  - refine (proj1 (parking_fee_spec app_config clock_eight "P001"
              (occupied_slot (36000 - 5400) "Zone-A") (36000 - 5400)
              eq_refl eq_refl eq_refl) _).
    unfold Qle. simpl. lia.
  - refine (proj1 (proj2 (parking_fee_spec app_config clock_eight "P001"
              (occupied_slot (36000 + 1800) "Zone-A") (36000 + 1800)
              eq_refl eq_refl eq_refl)) _ _).
    + unfold Qlt. simpl. lia.
    + unfold Qlt. simpl. lia.
Defined.

(* ------------------------------------------------------------------ *)
(** ** Rate engine                                                      *)

Lemma in_peak_windows_spec (windows : list (nat * nat)) (h : nat) :
  in_peak_windows windows h = true <->
  exists s e, In (s, e) windows /\ (s <= h < e)%nat.
Proof.
  induction windows as [|[s e] rest IH]; simpl.
  - split; [discriminate|]. intros (s & e & [] & _).
  - destruct (Nat.leb s h && Nat.ltb h e)%bool eqn:E.
    + apply andb_true_iff in E as [E1 E2].
      apply Nat.leb_le in E1. apply Nat.ltb_lt in E2.
      split; [intros _; exists s, e; auto|reflexivity].
    + rewrite IH. split.
      * intros (s' & e' & Hin & Hb). exists s', e'. auto.
      * intros (s' & e' & [Heq | Hin] & Hb).
        -- injection Heq as <- <-. exfalso.
           apply andb_false_iff in E as [E | E].
           ++ apply Nat.leb_nle in E. lia.
           ++ apply Nat.ltb_nlt in E. lia.
        -- exists s', e'. auto.
Qed.

(** C7: the dynamic rate is a step function of the hour of day: it is
    [HOURLY_RATE * PEAK_HOUR_MULTIPLIER] exactly when [s <= h < e] for a
    configured window [(s, e)], and [HOURLY_RATE] otherwise; for the
    windows of the source the start hour of each window is peak and the
    end hour is not. *)
Theorem dynamic_rate_step (cfg : config) (clk : clock) :
  ((exists s e, In (s, e) (PEAK_HOURS cfg) /\ (s <= now_hour clk < e)%nat) ->
     get_dynamic_rate cfg clk = HOURLY_RATE cfg * PEAK_HOUR_MULTIPLIER cfg) /\
  (~ (exists s e, In (s, e) (PEAK_HOURS cfg) /\ (s <= now_hour clk < e)%nat) ->
     get_dynamic_rate cfg clk = HOURLY_RATE cfg) /\
  (forall clk', now_hour clk' = now_hour clk ->
     get_dynamic_rate cfg clk' = get_dynamic_rate cfg clk) /\
  (forall s e t, In (s, e) (PEAK_HOURS app_config) ->
     get_dynamic_rate app_config {| now_s := t; now_hour := s |}
       = HOURLY_RATE app_config * PEAK_HOUR_MULTIPLIER app_config /\
     get_dynamic_rate app_config {| now_s := t; now_hour := e |}
       = HOURLY_RATE app_config).
Proof.
  unfold get_dynamic_rate, is_peak_hour. split; [|split; [|split]].
  - intro H. apply in_peak_windows_spec in H. now rewrite H.
  - intro H. destruct (in_peak_windows (PEAK_HOURS cfg) (now_hour clk)) eqn:E;
      [|reflexivity].
    exfalso. apply H. apply in_peak_windows_spec. exact E.
  - intros clk' ->. reflexivity.
  - intros s e t Hin. simpl in Hin.
    destruct Hin as [Heq | [Heq | []]]; injection Heq as <- <-; split; reflexivity.
Qed.

(* ------------------------------------------------------------------ *)
(** ** Statistics                                                       *)

(* ------------------------------------------------------------------ *)
(** ** Alerts                                                           *)

(** The icons of the alerts, rule by rule. *)
Lemma check_alerts_icons (cfg : config) (clk : clock) (df : list row)
    (stats : statistics) (prior : list alert) :
  map icon (check_alerts cfg clk df stats prior)
  = (if Qltb 85 (occupancy_rate stats) then [icon_rotating_light]
     else if Qltb 70 (occupancy_rate stats) then [icon_warning_sign] else [])
    ++ (if Nat.ltb 0 (overstay_count stats) then [icon_alarm_clock] else [])
    ++ (if Qltb 10000 (total_earnings stats) then [icon_money_bag] else [])
    ++ (if is_peak_hour cfg clk then [icon_chart_increasing] else []).
Proof.
  unfold check_alerts.
  destruct (Qltb 85 (occupancy_rate stats)); [|destruct (Qltb 70 (occupancy_rate stats))];
  destruct (Nat.ltb 0 (overstay_count stats));
  destruct (Qltb 10000 (total_earnings stats));
  destruct (is_peak_hour cfg clk); reflexivity.
Qed.

(** C8: [check_alerts] lists the alerts in the fixed order occupancy,
    overstay, revenue milestone, peak-hour information; the critical
    (occupancy above 85) and the high-demand warning (occupancy above 70)
    never both appear; the previous alert list is not read, so evaluating
    again with the same statistics (and clock) gives the same list. *)
Theorem check_alerts_spec (cfg : config) (clk : clock) (df : list row)
    (stats : statistics) (prior : list alert) :
  let A := check_alerts cfg clk df stats prior in
  Sorted lt (map alert_rank (map icon A)) /\
  (In icon_rotating_light (map icon A) <-> 85 < occupancy_rate stats) /\
  (In icon_warning_sign (map icon A) <->
     70 < occupancy_rate stats /\ occupancy_rate stats <= 85) /\
  ~ (In icon_rotating_light (map icon A) /\ In icon_warning_sign (map icon A)) /\
  (forall prior', check_alerts cfg clk df stats prior' = A) /\
  check_alerts cfg clk df stats A = A.
Proof.
  intro A. subst A. rewrite check_alerts_icons.
  split; [|split; [|split; [|split; [|split]]]].
  - destruct (Qltb 85 (occupancy_rate stats)); [|destruct (Qltb 70 (occupancy_rate stats))];
    destruct (Nat.ltb 0 (overstay_count stats));
    destruct (Qltb 10000 (total_earnings stats));
    destruct (is_peak_hour cfg clk); simpl;
    repeat (apply Sorted_cons || apply Sorted_nil || apply HdRel_nil
            || (apply HdRel_cons; lia)).
  - rewrite <- Qltb_true.
    destruct (Qltb 85 (occupancy_rate stats)); [|destruct (Qltb 70 (occupancy_rate stats))];
    destruct (Nat.ltb 0 (overstay_count stats));
    destruct (Qltb 10000 (total_earnings stats));
    destruct (is_peak_hour cfg clk); simpl; intuition discriminate.
  - rewrite <- Qltb_true, <- Qltb_false.
    destruct (Qltb 85 (occupancy_rate stats)); [|destruct (Qltb 70 (occupancy_rate stats))];
    destruct (Nat.ltb 0 (overstay_count stats));
    destruct (Qltb 10000 (total_earnings stats));
    destruct (is_peak_hour cfg clk); simpl; intuition discriminate.
  - destruct (Qltb 85 (occupancy_rate stats)); [|destruct (Qltb 70 (occupancy_rate stats))];
    destruct (Nat.ltb 0 (overstay_count stats));
    destruct (Qltb 10000 (total_earnings stats));
    destruct (is_peak_hour cfg clk); simpl; intuition discriminate.
  - reflexivity.
  - reflexivity.
Qed.

(* ------------------------------------------------------------------ *)
(** ** Booking allocation                                               *)

Definition free_slot_in (zone_ : string) : slot :=
  {| status := available; entry_time := None; zone := zone_;
     vehicle_type := None; license_plate := None; customer_id := None;
     is_reserved := false; maintenance := false |}.

Definition request_for (zone_ : option string) : api_request :=
  {| rq_name := Some "Asha"%string; rq_phone := Some "57001234"%string;
     rq_vehicle := Some "Car"%string; rq_license := Some "MU-4321"%string;
     rq_duration := Some 2%Z; rq_zone := zone_ |}.

Definition form_for (zone_ : option string) : booking_form :=
  {| f_name := Some "Asha"%string; f_phone := Some "57001234"%string;
     f_vehicle := Some "Car"%string; f_license := Some "MU-4321"%string;
     f_duration := Some 2; f_zone := zone_ |}.

(** Two free slots in Zone-A, no booking yet. *)
Definition two_free_slots : world :=
  {| parking := [("P001"%string, free_slot_in "Zone-A"); ("P002"%string, free_slot_in "Zone-A")];
     bookings := []; booking_counter := 1 |}.

(** C2 (code_bug): after one booking reserves P001, a second booking from
    the API, and one from the dashboard form, are given P001 again: the
    allocator filters on the status column only, which a reservation does
    not change. *)
Theorem reserved_slot_is_allocated_again :
  let w1 := fst (create_booking_api app_config clock_noon (request_for None) two_free_slots) in
  (exists d, get_slot "P001" (parking w1) = Some d /\ is_reserved d = true) /\
  (exists b, snd (create_booking_api app_config clock_noon (request_for None) w1)
             = api_created b /\ bk_slot b = "P001"%string) /\
  (exists b, snd (confirm_booking app_config clock_noon 1 (form_for None) w1)
             = form_confirmed b /\ bk_slot b = "P001"%string).
Proof.
  vm_compute.
  split; [eexists; split; reflexivity|].
  split; eexists; split; reflexivity.
Qed.

(** P001 is reserved, P002 free, both in Zone-A; P003 in Zone-B. *)
Definition reserved_first_slot : world :=
  {| parking := [("P001"%string, set_reserved true (free_slot_in "Zone-A"));
                 ("P002"%string, free_slot_in "Zone-A");
                 ("P003"%string, free_slot_in "Zone-B")];
     bookings := []; booking_counter := 1 |}.

(** C9 (code_bug): with a preference for Zone-A, whose smallest eligible
    slot is P002 (P001 is reserved), both booking paths choose P001. *)
Theorem zone_preference_picks_reserved_slot :
  (exists d, get_slot "P001" (parking reserved_first_slot) = Some d /\
             is_reserved d = true) /\
  (exists b, snd (create_booking_api app_config clock_noon
                    (request_for (Some "Zone-A"%string)) reserved_first_slot)
             = api_created b /\ bk_slot b = "P001"%string) /\
  (exists b, snd (confirm_booking app_config clock_noon 1
                    (form_for (Some "Zone-A"%string)) reserved_first_slot)
             = form_confirmed b /\ bk_slot b = "P001"%string).
Proof.
  vm_compute.
  split; [eexists; split; reflexivity|].
  split; eexists; split; reflexivity.
Qed.

Lemma parking_row_status (cfg : config) (clk : clock) (sid : string) (d : slot) :
  row_status_of (parking_row cfg clk sid d)
  = if maintenance d then MAINTENANCE
    else match status d with occupied => OCCUPIED | available => AVAILABLE end.
Proof.
  unfold parking_row.
  destruct (maintenance d), (status d), (entry_time d); reflexivity.
Qed.

Lemma api_select_in (zone_ : option string) (rows : list row) (sid zn : string) :
  api_select zone_ rows = Some (sid, zn) -> exists r, In r rows /\ slot_id r = sid.
Proof.
  unfold api_select. destruct rows as [|first rest]; [discriminate|].
  destruct zone_ as [z|].
  - destruct (truthy_str (Some z)).
    + destruct (filter (fun r => String.eqb (row_zone r) z) (first :: rest)) as [|zr zs] eqn:F.
      * intro H. injection H as <- _. exists first. simpl. auto.
      * intro H. injection H as <- _. exists zr. split; [|reflexivity].
        assert (Hin : In zr (filter (fun r => String.eqb (row_zone r) z) (first :: rest)))
          by (rewrite F; left; reflexivity).
        apply filter_In in Hin. apply Hin.
    + intro H. injection H as <- _. exists first. simpl. auto.
  - intro H. injection H as <- _. exists first. simpl. auto.
Qed.

(** What the API allocator does guarantee: the chosen slot is an entry of
    [parking_data] with raw status ["available"] and not under maintenance
    (its reservation flag is not consulted). *)
Lemma api_allocates_available_slot (cfg : config) (clk : clock) (rq : api_request)
    (w w' : world) (b : booking) :
  create_booking_api cfg clk rq w = (w', api_created b) ->
  exists d, In (bk_slot b, d) (parking w) /\ status d = available /\ maintenance d = false.
Proof.
  unfold create_booking_api.
  destruct (rq_name rq), (rq_phone rq), (rq_vehicle rq), (rq_license rq), (rq_duration rq);
    try discriminate.
  destruct (api_select (rq_zone rq) _) as [[sid zn]|] eqn:Sel; [|discriminate].
  intro H. injection H as _ <-. simpl.
  apply api_select_in in Sel as (r & Hin & <-).
  apply filter_In in Hin as [Hin Hst].
  unfold get_parking_data in Hin. apply in_map_iff in Hin as ([k d] & <- & Hkd).
  exists d. unfold has_status in Hst. rewrite parking_row_status in Hst.
  replace (slot_id (parking_row cfg clk k d)) with k
    by (unfold parking_row; destruct (maintenance d), (status d), (entry_time d); reflexivity).
  split; [exact Hkd|].
  destruct (maintenance d); [discriminate|].
  destruct (status d); [|discriminate]. auto.
Qed.

(* ------------------------------------------------------------------ *)
(** ** Checkout                                                         *)

Lemma get_slot_update (sid k : string) (f : slot -> slot) (pd : parking_data) :
  get_slot sid (update_slot k f pd)
  = if String.eqb sid k then option_map f (get_slot sid pd) else get_slot sid pd.
Proof.
  induction pd as [|[k' d] rest IH]; unfold get_slot in *; simpl.
  - destruct (String.eqb sid k); reflexivity.
  - destruct (String.eqb_spec k' k) as [Hk|Hk]; simpl;
      destruct (String.eqb_spec k' sid) as [Hs|Hs]; simpl.
    + subst. rewrite String.eqb_refl. reflexivity.
    + exact IH.
    + subst. destruct (String.eqb_spec sid k); [congruence|reflexivity].
    + exact IH.
Qed.

Lemma get_slot_absent (k : string) (pd : parking_data) :
  slot_exists k pd = false -> get_slot k pd = None.
Proof.
  induction pd as [|[k' d] rest IH]; unfold get_slot in *; simpl; [reflexivity|].
  destruct (String.eqb k' k); [discriminate|]. exact IH.
Qed.

Lemma find_replace_first (booking_id : string) (b' : booking) (bs : list booking) (b : booking) :
  find_booking booking_id bs = Some b -> bk_id b' = booking_id ->
  find_booking booking_id (replace_first booking_id b' bs) = Some b'.
Proof.
  intros F Hid. induction bs as [|x rest IH]; simpl in *; [discriminate|].
  destruct (String.eqb (bk_id x) booking_id) eqn:E; simpl.
  - rewrite Hid, String.eqb_refl. reflexivity.
  - rewrite E. apply IH. exact F.
Qed.

Lemma find_booking_id (booking_id : string) (bs : list booking) (b : booking) :
  find_booking booking_id bs = Some b -> bk_id b = booking_id.
Proof.
  intro F. apply find_some in F as [_ E]. apply String.eqb_eq. exact E.
Qed.

(* ------------------------------------------------------------------ *)
(** ** Booking identifiers                                              *)

Lemma parse_uint_to_string (u : Decimal.uint) (acc : nat) :
  parse_digits (uint_to_string u) acc = Some (Nat.of_uint_acc u acc).
Proof.
  revert acc.
  induction u as [|u IH|u IH|u IH|u IH|u IH|u IH|u IH|u IH|u IH|u IH];
    intro acc; simpl; [reflexivity| ..];
    rewrite IH; f_equal; f_equal; rewrite Nat.tail_mul_spec; lia.
Qed.

Lemma parse_zeros (k : nat) (s : string) :
  parse_digits (append (zeros k) s) 0 = parse_digits s 0.
Proof.
  induction k as [|k IH]; [reflexivity|]. exact IH.
Qed.

(** Reading back a formatted identifier gives the counter value. *)
Lemma booking_number_format (n : nat) :
  booking_number (format_booking_id n) = Some n.
Proof.
  unfold booking_number, format_booking_id, zfill, py_str. simpl.
  rewrite parse_zeros, parse_uint_to_string.
  f_equal. apply DecimalNat.Unsigned.of_to.
Qed.

Lemma format_booking_id_inj (m n : nat) :
  format_booking_id m = format_booking_id n -> m = n.
Proof.
  intro H. apply (f_equal booking_number) in H.
  rewrite !booking_number_format in H. injection H as H. exact H.
Qed.

Lemma NoDup_map_format (l : list nat) :
  NoDup l -> NoDup (map format_booking_id l).
Proof.
  induction 1 as [|x l Hx Hl IH]; simpl; constructor; [|exact IH].
  intro Hin. apply in_map_iff in Hin as (y & Hy & Hin).
  apply format_booking_id_inj in Hy. subst. contradiction.
Qed.

Lemma replace_first_ids (booking_id : string) (b' : booking) (bs : list booking) :
  bk_id b' = booking_id ->
  map bk_id (replace_first booking_id b' bs) = map bk_id bs.
Proof.
  intro Hid. induction bs as [|x rest IH]; simpl; [reflexivity|].
  destruct (String.eqb_spec (bk_id x) booking_id) as [E|E]; simpl.
  - rewrite Hid, E. reflexivity.
  - rewrite IH. reflexivity.
Qed.

(** The transitions of the application state: the two booking paths, the
    checkout endpoint, and the writes to [parking_data] alone (such as
    [simulate_parking_activity]), which leave the bookings and the counter
    as they are. *)
Inductive step (cfg : config) : world -> world -> Prop :=
  | step_api clk rq w : step cfg w (fst (create_booking_api cfg clk rq w))
  | step_form clk n_clicks form w : step cfg w (fst (confirm_booking cfg clk n_clicks form w))
  | step_checkout clk booking_id w : step cfg w (fst (checkout_booking_api clk booking_id w))
  | step_slots pd w :
      step cfg w {| parking := pd; bookings := bookings w; booking_counter := booking_counter w |}.

(** The states reachable from the module's initialisation: no booking and
    [booking_counter = 1], whatever the slots. *)
Inductive reachable (cfg : config) : world -> Prop :=
  | reach_init pd : reachable cfg {| parking := pd; bookings := []; booking_counter := 1 |}
  | reach_step w w' : reachable cfg w -> step cfg w w' -> reachable cfg w'.

Definition ids_invariant (w : world) : Prop :=
  (1 <= booking_counter w)%nat /\
  map bk_id (bookings w) = map format_booking_id (seq 1 (booking_counter w - 1)).

Lemma ids_invariant_append (w : world) (b : booking) (pd : parking_data) :
  ids_invariant w -> bk_id b = format_booking_id (booking_counter w) ->
  ids_invariant {| parking := pd; bookings := bookings w ++ [b];
                   booking_counter := S (booking_counter w) |}.
Proof.
  intros [H1 H2] Hb. unfold ids_invariant; simpl. split; [lia|].
  rewrite map_app, H2. simpl.
  replace (booking_counter w - 0)%nat with (S (booking_counter w - 1)) by lia.
  rewrite seq_S, map_app. simpl. rewrite Hb. do 3 f_equal. lia.
Qed.

Lemma step_ids_invariant (cfg : config) (w w' : world) :
  step cfg w w' -> ids_invariant w -> ids_invariant w'.
Proof.
  intros Hs Hinv. destruct Hs as [clk rq w|clk n form w|clk booking_id w|pd w].
  - unfold create_booking_api.
    destruct (rq_name rq), (rq_phone rq), (rq_vehicle rq), (rq_license rq), (rq_duration rq);
      try exact Hinv.
    destruct (api_select _ _) as [[slot zn]|]; [|exact Hinv].
    apply ids_invariant_append; [exact Hinv|reflexivity].
  - unfold confirm_booking.
    destruct (Nat.ltb 0 n); [|exact Hinv].
    destruct (_ && _)%bool; [|exact Hinv].
    destruct (f_name form), (f_phone form), (f_vehicle form), (f_license form), (f_duration form);
      try exact Hinv.
    destruct (form_select _ _) as [slot|]; [|exact Hinv].
    apply ids_invariant_append; [exact Hinv|reflexivity].
  - unfold checkout_booking_api.
    destruct (find_booking booking_id (bookings w)) as [b|] eqn:F; [|exact Hinv].
    destruct (bk_status b); [|exact Hinv].
    destruct Hinv as [H1 H2]. split; [exact H1|]. simpl.
    rewrite replace_first_ids; [exact H2|]. apply (find_booking_id _ _ _ F).
  - exact Hinv.
Qed.

Lemma reachable_ids_invariant (cfg : config) (w : world) :
  reachable cfg w -> ids_invariant w.
Proof.
  induction 1 as [pd|w w' _ IH Hs].
  - split; reflexivity.
  - exact (step_ids_invariant cfg w w' Hs IH).
Qed.

(** C10: in every state reachable by a sequence of operations, the
    bookings, in creation order, carry the identifiers
    [BK + str(c).zfill(4)] for the successive counter values
    [c = 1, 2, ..., booking_counter - 1]: the identifiers are pairwise
    distinct and a booking created later carries a larger counter value. *)
Theorem booking_ids_distinct_increasing (cfg : config) (w : world)
    (Hreach : reachable cfg w) :
  map bk_id (bookings w) = map format_booking_id (seq 1 (booking_counter w - 1)) /\
  NoDup (map bk_id (bookings w)) /\
  (forall i j id_i id_j, (i < j)%nat ->
     nth_error (map bk_id (bookings w)) i = Some id_i ->
     nth_error (map bk_id (bookings w)) j = Some id_j ->
     exists c_i c_j, booking_number id_i = Some c_i /\
                     booking_number id_j = Some c_j /\ (c_i < c_j)%nat).
Proof.
  destruct (reachable_ids_invariant cfg w Hreach) as [_ H].
  split; [exact H|]. rewrite H. split.
  - apply NoDup_map_format, seq_NoDup.
  - intros i j id_i id_j Hij Hi Hj.
    rewrite nth_error_map, nth_error_seq in Hi, Hj.
    destruct (Nat.ltb i _); [|discriminate]. destruct (Nat.ltb j _); [|discriminate].
    injection Hi as <-. injection Hj as <-.
    exists (1 + i)%nat, (1 + j)%nat.
    rewrite !booking_number_format. repeat split. lia.
Qed.

Lemma booking_ids_distinct_increasing_witness :
  let w1 := fst (create_booking_api app_config clock_noon (request_for None) two_free_slots) in
  let w2 := fst (confirm_booking app_config clock_noon 1 (form_for None) w1) in
  reachable app_config w2 /\
  NoDup (map bk_id (bookings w2)) /\
  map bk_id (bookings w2) = ["BK0001"; "BK0002"]%string.
Proof.
  intros w1 w2.
  assert (R : reachable app_config w2).
  { apply (reach_step _ w1); [|apply step_form].
    apply (reach_step _ two_free_slots); [apply reach_init|apply step_api]. }
  split; [exact R|].
  destruct (booking_ids_distinct_increasing app_config w2 R) as (Hids & Hnd & _).
  split; [exact Hnd|]. rewrite Hids. vm_compute. reflexivity.
Defined.

(* ------------------------------------------------------------------ *)
(** ** Further properties of the code                                  *)

(** A run of the application used by the examples: start at noon with
    the 35 initial vehicles parked 1.5 hours ago, one booking through the
    API without a zone, then one refresh of the dashboard in which every
    slot draws 0.05. *)
Definition demo_init_draws (i : nat) : init_draw :=
  {| id_hours_back := 3 # 2; id_vehicle := "Car"; id_plate_no := 4321;
     id_customer_no := 1234 |}.

Definition demo_sim_draws (sid : string) : sim_draw :=
  {| sd_roll := 1 # 20; sd_hours_back := 1; sd_vehicle := "Bike";
     sd_plate_no := 1111; sd_customer_no := 2222 |}.

Definition demo_request : api_request :=
  {| rq_name := Some "Ravi"%string; rq_phone := Some "57009876"%string;
     rq_vehicle := Some "SUV"%string; rq_license := Some "MU-2468"%string;
     rq_duration := Some 3%Z; rq_zone := None |}.

Definition demo_booked : world :=
  fst (create_booking_api app_config clock_noon demo_request
         (initial_world clock_noon demo_init_draws)).

Definition demo_world : world := tick clock_noon demo_sim_draws demo_booked.

(** From the same start, two API bookings without a zone both get P036,
    the first free slot (BK0001 and BK0002); BK0002 is checked out, which
    frees P036, and a refresh then parks a vehicle there while BK0001 is
    still active. *)
Definition shared_slot_world : world :=
  tick clock_noon demo_sim_draws
    (fst (checkout_booking_api clock_noon "BK0002"
      (fst (create_booking_api app_config clock_noon demo_request
        (fst (create_booking_api app_config clock_noon demo_request
          (initial_world clock_noon demo_init_draws))))))).

(** The API request carrying the values of a dashboard form; the API
    keeps [int(duration)]. *)
Definition request_of_form (form : booking_form) : api_request :=
  {| rq_name := f_name form; rq_phone := f_phone form; rq_vehicle := f_vehicle form;
     rq_license := f_license form; rq_duration := option_map py_int (f_duration form);
     rq_zone := f_zone form |}.

Definition demo_form : booking_form :=
  {| f_name := Some "Ravi"%string; f_phone := Some "57009876"%string;
     f_vehicle := Some "SUV"%string; f_license := Some "MU-2468"%string;
     f_duration := Some (5 # 2); f_zone := Some "Zone-B"%string |}.

Definition admin_session : session :=
  {| authenticated := true; user := Some "admin"%string; role := Some "admin"%string |}.

Lemma no_dup_strings_NoDup (l : list string) : no_dup_strings l = true -> NoDup l.
Proof.
  induction l as [|x rest IH]; simpl; intro H; [constructor|].
  apply andb_true_iff in H as [H1 H2]. constructor; [|auto].
  intro Hin. apply negb_true_iff in H1.
  assert (existsb (String.eqb x) rest = true) by (apply existsb_exists; exists x; split; [exact Hin|apply String.eqb_refl]).
  congruence.
Qed.

Lemma slot_zones_keys (pd : parking_data) : map fst (slot_zones pd) = map fst pd.
Proof. induction pd as [|[k d] rest IH]; simpl; congruence. Qed.

Lemma initial_keys_NoDup : NoDup (map fst initial_zones).
Proof. apply no_dup_strings_NoDup. vm_compute. reflexivity. Qed.

Lemma NoDup_fst_unique {A B : Type} (l : list (A * B)) (k : A) (x y : B) :
  NoDup (map fst l) -> In (k, x) l -> In (k, y) l -> x = y.
Proof.
  induction l as [|[k' v] rest IH]; simpl; [tauto|].
  intros Hnd Hx Hy. inversion Hnd as [|? ? Hnin Hnd']; subst.
  destruct Hx as [Ex|Hx], Hy as [Ey|Hy].
  - congruence.
  - injection Ex as E1 E2. exfalso. apply Hnin. apply in_map_iff.
    exists (k, y). split; [simpl; congruence|exact Hy].
  - injection Ey as E1 E2. exfalso. apply Hnin. apply in_map_iff.
    exists (k, x). split; [simpl; congruence|exact Hx].
  - auto.
Qed.

Lemma update_slot_zones (sid : string) (f : slot -> slot) (pd : parking_data) :
  (forall d, zone (f d) = zone d) -> slot_zones (update_slot sid f pd) = slot_zones pd.
Proof.
  intro Hf. induction pd as [|[k d] rest IH]; simpl; [reflexivity|].
  destruct (String.eqb k sid); simpl; rewrite IH; [rewrite Hf|]; reflexivity.
Qed.

Lemma In_update_slot (sid k : string) (f : slot -> slot) (pd : parking_data) (d : slot) :
  In (k, d) (update_slot sid f pd) ->
  exists d0, In (k, d0) pd /\ ((k = sid /\ d = f d0) \/ d = d0).
Proof.
  induction pd as [|[k' d'] rest IH]; simpl; [tauto|].
  intros [E|Hin].
  - destruct (String.eqb_spec k' sid) as [->|_]; injection E as <- <-.
    + exists d'. auto.
    + exists d'. auto.
  - destruct (IH Hin) as (d0 & Hd0 & Hc). exists d0. auto.
Qed.

Lemma simulate_zones (clk : clock) (draws : string -> sim_draw) (pd : parking_data) :
  slot_zones (simulate_parking_activity clk draws pd) = slot_zones pd.
Proof.
  induction pd as [|[k d] rest IH]; simpl; [reflexivity|]. rewrite IH. f_equal. f_equal.
  unfold simulate_slot. destruct (maintenance d); [reflexivity|].
  destruct (Qltb _ _); [|reflexivity]. destruct (status d), (is_reserved d); reflexivity.
Qed.

Lemma In_simulate (clk : clock) (draws : string -> sim_draw) (pd : parking_data) (k : string) (d : slot) :
  In (k, d) (simulate_parking_activity clk draws pd) ->
  exists d0, In (k, d0) pd /\ d = simulate_slot clk (draws k) d0.
Proof.
  induction pd as [|[k' d'] rest IH]; simpl; [tauto|].
  intros [E|Hin].
  - injection E as <- <-. exists d'. auto.
  - destruct (IH Hin) as (d0 & ? & ?). exists d0. auto.
Qed.

Lemma to_timestamp_le (t : Q) : to_timestamp t <= t.
Proof. unfold to_timestamp. apply Qfloor_le. Qed.

Lemma entry_before_now (clk : clock) (h : Q) :
  0 <= h -> to_timestamp (now_s clk - h * 3600) <= now_s clk.
Proof.
  intro Hh. eapply Qle_trans; [apply to_timestamp_le|].
  assert (0 <= h * 3600) by (apply Qmult_le_0_compat; [exact Hh|discriminate]).
  rewrite <- (Qplus_0_r (now_s clk)) at 2.
  unfold Qminus. apply Qplus_le_compat; [apply Qle_refl|].
  apply (Qopp_le_compat 0) in H. exact H.
Qed.

Lemma slot_ok_later (t t' : Q) (d : slot) : slot_ok t d -> t <= t' -> slot_ok t' d.
Proof.
  intros (Hm & Hr & Ho) Ht. split; [exact Hm|]. split; [exact Hr|].
  intro Hs. destruct (Ho Hs) as (e & He & Hle). exists e. split; [exact He|].
  eapply Qle_trans; eassumption.
Qed.

Lemma form_select_api (zone_ : option string) (rows : list row) :
  form_select zone_ rows = option_map fst (api_select zone_ rows).
Proof.
  unfold form_select, api_select. destruct rows as [|first rest].
  - destruct zone_ as [z|]; [destruct (truthy_str (Some z))|]; reflexivity.
  - destruct zone_ as [z|]; [|reflexivity].
    destruct (truthy_str (Some z)); [|reflexivity].
    destruct (filter _ _); reflexivity.
Qed.

Lemma selected_row_available (cfg : config) (clk : clock) (pd : parking_data) (sid : string) :
  (exists r, In r (filter (has_status AVAILABLE) (get_parking_data cfg clk pd)) /\ slot_id r = sid) ->
  exists d, In (sid, d) pd /\ status d = available /\ maintenance d = false.
Proof.
  intros (r & Hin & <-).
  apply filter_In in Hin as [Hin Hst].
  unfold get_parking_data in Hin. apply in_map_iff in Hin as ([k d] & <- & Hkd).
  exists d. unfold has_status in Hst. rewrite parking_row_status in Hst.
  replace (slot_id (parking_row cfg clk k d)) with k
    by (unfold parking_row; destruct (maintenance d), (status d), (entry_time d); reflexivity).
  split; [exact Hkd|].
  destruct (maintenance d); [discriminate|].
  destruct (status d); [|discriminate]. auto.
Qed.

(** What a request or a form submission does to [parking_data]: nothing,
    or one update of the entry of an available slot. *)
Lemma create_booking_frame (cfg : config) (clk : clock) (rq : api_request) (w : world) :
  parking (fst (create_booking_api cfg clk rq w)) = parking w \/
  exists sid vehicle license d,
    In (sid, d) (parking w) /\ status d = available /\ maintenance d = false /\
    parking (fst (create_booking_api cfg clk rq w))
    = update_slot sid (reserve_for vehicle license) (parking w).
Proof.
  unfold create_booking_api.
  destruct (rq_name rq), (rq_phone rq), (rq_vehicle rq) as [vehicle|], (rq_license rq) as [license|],
    (rq_duration rq); try (left; reflexivity).
  destruct (api_select (rq_zone rq) _) as [[sid zn]|] eqn:Sel; [|left; reflexivity].
  right. apply api_select_in in Sel.
  destruct (selected_row_available cfg clk (parking w) sid Sel) as (d & ? & ? & ?).
  exists sid, vehicle, license, d. auto.
Qed.

Lemma confirm_booking_frame (cfg : config) (clk : clock) (n_clicks : nat)
    (form : booking_form) (w : world) :
  parking (fst (confirm_booking cfg clk n_clicks form w)) = parking w \/
  exists sid d,
    In (sid, d) (parking w) /\ status d = available /\ maintenance d = false /\
    parking (fst (confirm_booking cfg clk n_clicks form w))
    = update_slot sid (set_reserved true) (parking w).
Proof.
  unfold confirm_booking.
  destruct (Nat.ltb 0 n_clicks); [|left; reflexivity].
  destruct (_ && _)%bool; [|left; reflexivity].
  destruct (f_name form), (f_phone form), (f_vehicle form), (f_license form),
    (f_duration form); try (left; reflexivity).
  destruct (form_select (f_zone form) _) as [sid|] eqn:Sel; [|left; reflexivity].
  right. rewrite form_select_api in Sel.
  destruct (api_select _ _) as [[sid' zn]|] eqn:Sel'; [|discriminate].
  simpl in Sel. injection Sel as <-. apply api_select_in in Sel'.
  destruct (selected_row_available cfg clk (parking w) sid' Sel') as (d & ? & ? & ?).
  exists sid', d. auto.
Qed.

Lemma checkout_frame (clk : clock) (booking_id : string) (w : world) :
  parking (fst (checkout_booking_api clk booking_id w)) = parking w \/
  exists sid, parking (fst (checkout_booking_api clk booking_id w))
              = update_slot sid free_slot (parking w).
Proof.
  unfold checkout_booking_api.
  destruct (find_booking booking_id (bookings w)) as [b|]; [|left; reflexivity].
  destruct (bk_status b); [|left; reflexivity]. simpl.
  destruct (slot_exists (bk_slot b) (parking w)); [right; eexists; reflexivity|left; reflexivity].
Qed.

Lemma run_inv_reserve (clk : clock) (w : world) (f : slot -> slot) (sid : string) (d : slot) (pd : parking_data) :
  run_inv clk w ->
  In (sid, d) (parking w) -> status d = available -> maintenance d = false ->
  (forall d0, zone (f d0) = zone d0 /\ status (f d0) = status d0 /\ maintenance (f d0) = maintenance d0) ->
  pd = update_slot sid f (parking w) ->
  slot_zones pd = initial_zones /\ forall k d', In (k, d') pd -> slot_ok (now_s clk) d'.
Proof.
  intros [Hz Hok] Hin Hst Hm Hf ->. split.
  - rewrite update_slot_zones; [exact Hz|intro; apply Hf].
  - intros k d' Hk. apply In_update_slot in Hk as (d0 & Hd0 & [[-> ->]| ->]); [|exact (Hok _ _ Hd0)].
    assert (Hnd : NoDup (map fst (parking w))) by (rewrite <- slot_zones_keys, Hz; apply initial_keys_NoDup).
    assert (d0 = d) as -> by exact (NoDup_fst_unique _ _ _ _ Hnd Hd0 Hin).
    destruct (Hf d) as (_ & Hs & Hm'). repeat split.
    + congruence.
    + intros _. congruence.
    + rewrite Hs, Hst. discriminate.
Qed.

Lemma simulate_slot_ok (clk : clock) (dr : sim_draw) (d : slot) :
  0 <= sd_hours_back dr -> slot_ok (now_s clk) d -> slot_ok (now_s clk) (simulate_slot clk dr d).
Proof.
  intros Hh Hok. pose proof Hok as (Hm & Hr & Ho).
  unfold simulate_slot. rewrite Hm.
  destruct (Qltb _ _); [|exact Hok].
  destruct (status d) eqn:Hs, (is_reserved d) eqn:Hres; unfold release_slot;
    repeat split; simpl; try (exact Hm); try discriminate; try congruence.
  intros _. eexists. split; [reflexivity|]. apply entry_before_now. exact Hh.
Qed.

Lemma initial_inv (clk : clock) (draws : nat -> init_draw) :
  (forall i, 0 <= id_hours_back (draws i)) -> run_inv clk (initial_world clk draws).
Proof.
  intro Hdr. unfold run_inv, initial_world, initial_parking_data; simpl.
  set (base := map (fun i => (slot_key i, initial_slot i)) (seq 0 (TOTAL_SLOTS app_config))).
  assert (Hb : slot_zones base = initial_zones /\
               forall k d, In (k, d) base -> slot_ok (now_s clk) d /\ is_reserved d = false).
  { split.
    - unfold slot_zones, base, initial_zones. rewrite map_map. reflexivity.
    - intros k d Hin. unfold base in Hin. apply in_map_iff in Hin as (i & E & _).
      injection E as _ <-. repeat split; discriminate. }
  assert (Hgen : forall l pd,
    slot_zones pd = initial_zones /\
    (forall k d, In (k, d) pd -> slot_ok (now_s clk) d /\ is_reserved d = false) ->
    let pd' := fold_left (fun pd i => let dr := draws i in
       update_slot (slot_key i)
         (occupy_slot (to_timestamp (now_s clk - id_hours_back dr * 3600))
            (id_vehicle dr) (plate_of (id_plate_no dr)) (customer_of (id_customer_no dr))) pd) l pd in
    slot_zones pd' = initial_zones /\
    (forall k d, In (k, d) pd' -> slot_ok (now_s clk) d /\ is_reserved d = false)).
  { induction l as [|i l IH]; intros pd [Hz Hok]; simpl; [auto|].
    apply IH. split.
    - rewrite update_slot_zones; [exact Hz|reflexivity].
    - intros k d Hin. apply In_update_slot in Hin as (d0 & Hd0 & [[_ ->]| ->]); [|exact (Hok _ _ Hd0)].
      destruct (Hok _ _ Hd0) as ((Hm & _ & _) & Hr).
      repeat split; simpl; try assumption; try congruence.
      intros _. eexists. split; [reflexivity|]. apply entry_before_now. apply Hdr. }
  destruct (Hgen (seq 0 35) base Hb) as [Hz Hok]. split; [exact Hz|].
  intros k d Hin. apply (Hok k d Hin).
Qed.

Lemma run_invariant (cfg : config) (clk : clock) (w : world) :
  run cfg clk w -> run_inv clk w.
Proof.
  induction 1 as [clk draws Hdr|clk clk' w Hr IH Hle|clk rq w Hr IH|clk n form w Hr IH
                 |clk booking_id w Hr IH|clk draws w Hdr Hr IH].
  - apply initial_inv. exact Hdr.
  - destruct IH as [Hz Hok]. split; [exact Hz|].
    intros k d Hin. eapply slot_ok_later; [apply (Hok k d Hin)|exact Hle].
  - destruct (create_booking_frame cfg clk rq w) as [E|(sid & v & l & d & Hin & Hs & Hm & E)].
    + unfold run_inv. rewrite E. exact IH.
    + apply (run_inv_reserve clk w (reserve_for v l) sid d); auto; intro; repeat split.
  - destruct (confirm_booking_frame cfg clk n form w) as [E|(sid & d & Hin & Hs & Hm & E)].
    + unfold run_inv. rewrite E. exact IH.
    + apply (run_inv_reserve clk w (set_reserved true) sid d); auto; intro; repeat split.
  - destruct IH as [Hz Hok].
    destruct (checkout_frame clk booking_id w) as [E|(sid & E)]; unfold run_inv; rewrite E.
    + split; assumption.
    + split; [rewrite update_slot_zones; [exact Hz|reflexivity]|].
      intros k d Hin. apply In_update_slot in Hin as (d0 & Hd0 & [[_ ->]| ->]); [|exact (Hok _ _ Hd0)].
      destruct (Hok _ _ Hd0) as (Hm & _ & _).
      repeat split; simpl; try assumption; discriminate.
  - destruct IH as [Hz Hok]. unfold run_inv, tick; simpl. split.
    + rewrite simulate_zones. exact Hz.
    + intros k d Hin. apply In_simulate in Hin as (d0 & Hd0 & ->).
      apply simulate_slot_ok; [apply Hdr|exact (Hok _ _ Hd0)].
Qed.




Lemma slot_zones_rows (cfg : config) (clk : clock) (pd : parking_data) :
  map (fun r => (slot_id r, row_zone r)) (get_parking_data cfg clk pd) = slot_zones pd.
Proof.
  induction pd as [|[k d] rest IH]; simpl; [reflexivity|]. rewrite IH. f_equal.
  unfold parking_row. destruct (maintenance d), (status d), (entry_time d); reflexivity.
Qed.

Lemma count_rows_map_zone (z : string) (rows : list row) :
  List.length (filter (fun r => String.eqb (row_zone r) z) rows)
  = List.length (filter (fun p => String.eqb (snd p) z) (map (fun r => (slot_id r, row_zone r)) rows)).
Proof.
  induction rows as [|r rest IH]; simpl; [reflexivity|].
  destruct (String.eqb (row_zone r) z); simpl; rewrite IH; reflexivity.
Qed.

Lemma count_rows_mono (p q : row -> bool) (rows : list row) :
  Forall (fun r => p r = true -> q r = true) rows -> (count_rows p rows <= count_rows q rows)%nat.
Proof.
  unfold count_rows. induction 1 as [|r rest Hr _ IH]; simpl; [lia|].
  destruct (p r) eqn:Ep, (q r) eqn:Eq; simpl; try lia.
  all: specialize (Hr eq_refl); congruence.
Qed.

Lemma demo_run : run app_config clock_noon demo_world.
Proof.
  apply run_tick; [intro; simpl; discriminate|].
  apply run_api. apply run_init. intro; simpl; discriminate.
Qed.

Lemma run_slot_ok (cfg : config) (clk : clock) (w : world) :
  run cfg clk w -> Forall (fun kd => slot_ok (now_s clk) (snd kd)) (parking w).
Proof.
  intro Hr. destruct (run_invariant cfg clk w Hr) as [_ Hok].
  apply Forall_forall. intros [k d] Hin. exact (Hok k d Hin).
Qed.

(** In every state of a run of the application, no slot is under
    maintenance and a reserved slot is never occupied: its raw status is
    ["available"]. *)
Theorem run_slots_sound (cfg : config) (clk : clock) (w : world) :
  run cfg clk w ->
  Forall (fun kd => maintenance (snd kd) = false /\
                    (is_reserved (snd kd) = true -> status (snd kd) = available))
         (parking w).
Proof.
  intro Hr. eapply Forall_impl; [|exact (run_slot_ok cfg clk w Hr)].
  intros [k d] (Hm & Hres & _). auto.
Qed.

Lemma run_slots_sound_witness :
  run app_config clock_noon demo_world /\
  Forall (fun kd => maintenance (snd kd) = false /\
                    (is_reserved (snd kd) = true -> status (snd kd) = available))
         (parking demo_world).
Proof. split; [exact demo_run|apply (run_slots_sound app_config clock_noon demo_world demo_run)]. Defined.



(** In every state of a run, the dict keys are P001 ... P100 in this
    order and [/api/zones] reports 25 slots in each of the four zones. *)
Theorem run_slot_layout (cfg : config) (clk : clock) (w : world) :
  run cfg clk w ->
  map fst (parking w) = map slot_key (seq 0 (TOTAL_SLOTS app_config)) /\
  map zs_total (get_zones_api cfg clk (parking w)) = [25; 25; 25; 25]%nat.
Proof.
  intro Hr. destruct (run_invariant cfg clk w Hr) as [Hz _]. split.
  - rewrite <- slot_zones_keys, Hz. unfold initial_zones. rewrite map_map. reflexivity.
  - unfold get_zones_api, ZONES. cbn [map]. unfold zone_entry. cbn [zs_total].
    rewrite !count_rows_map_zone, slot_zones_rows, Hz. vm_compute. reflexivity.
Qed.

Lemma run_slot_layout_witness :
  run app_config clock_noon demo_world /\
  map fst (parking demo_world) = map slot_key (seq 0 (TOTAL_SLOTS app_config)) /\
  map zs_total (get_zones_api app_config clock_noon (parking demo_world)) = [25; 25; 25; 25]%nat.
Proof. split; [exact demo_run|apply (run_slot_layout app_config clock_noon demo_world demo_run)]. Defined.

(** In every state of a run, the statistics count no more reserved
    slots than available ones. *)
Theorem run_reserved_le_available (cfg : config) (clk : clock) (w : world)
    (turnover_draw wait_draw : Q) (st : statistics) :
  run cfg clk w ->
  get_statistics cfg turnover_draw wait_draw (get_parking_data cfg clk (parking w)) = Some st ->
  (st_reserved st <= st_available st)%nat.
Proof.
  intros Hr Hst. unfold get_statistics in Hst.
  destruct (Nat.eqb (List.length (get_parking_data cfg clk (parking w))) 0); [discriminate|].
  destruct (TOTAL_SLOTS cfg); [discriminate|]. injection Hst as <-. simpl.
  apply count_rows_mono. unfold get_parking_data. apply Forall_map.
  eapply Forall_impl; [|exact (run_slot_ok cfg clk w Hr)].
  intros [k d] (Hm & Hres & _). simpl in *. intro Hr'.
  unfold has_status. rewrite parking_row_status, Hm.
  replace (_is_reserved (parking_row cfg clk k d)) with (is_reserved d) in Hr'
    by (unfold parking_row; destruct (maintenance d), (status d), (entry_time d); reflexivity).
  rewrite (Hres Hr'). reflexivity.
Qed.

Lemma run_reserved_le_available_witness :
  exists st,
  run app_config clock_noon demo_world /\
  get_statistics app_config 0 0 (get_parking_data app_config clock_noon (parking demo_world)) = Some st /\
  (st_reserved st <= st_available st)%nat.
Proof.
  eexists. split; [exact demo_run|]. split; [reflexivity|].
  apply (run_reserved_le_available app_config clock_noon demo_world 0 0 _ demo_run). reflexivity.
Defined.

Lemma py_round1_bounds (x : Q) : 0 <= x -> x <= 100 -> 0 <= py_round1 x /\ py_round1 x <= 100.
Proof.
  intros H0 H1. unfold py_round1.
  set (y := x * 10). set (f := Qfloor y). set (r := y - inject_Z f).
  assert (Hy0 : 0 <= y) by (unfold y; apply Qmult_le_0_compat; [exact H0|discriminate]).
  assert (Hy1 : y <= 1000).
  { unfold y. setoid_replace 1000 with (100 * 10) by reflexivity.
    apply Qmult_le_compat_r; [exact H1|discriminate]. }
  assert (Hf : inject_Z f <= y) by apply Qfloor_le.
  assert (Hf0 : (0 <= f)%Z) by (change 0%Z with (Qfloor 0); apply Qfloor_resp_le; exact Hy0).
  assert (Hf1 : (f <= 1000)%Z) by (rewrite Zle_Qle; eapply Qle_trans; eassumption).
  assert (Hn : exists n, (0 <= n <= 1000)%Z /\
    (if Qltb r (1 # 2) then f
     else if Qltb (1 # 2) r then (f + 1)%Z
     else if Z.even f then f else (f + 1)%Z) = n).
  { destruct (Qltb r (1 # 2)) eqn:L1.
    - exists f. split; [lia|reflexivity].
    - apply Qltb_false in L1.
      assert (Hlt : (f < 1000)%Z).
      { rewrite Zlt_Qlt. apply (Qlt_le_trans _ y); [|exact Hy1].
        apply (Qlt_le_trans _ (inject_Z f + (1 # 2))).
        - rewrite <- (Qplus_0_r (inject_Z f)) at 1. apply Qplus_lt_r. reflexivity.
        - apply (Qplus_le_l _ _ (- inject_Z f)).
          setoid_replace (inject_Z f + (1 # 2) + - inject_Z f) with (1 # 2) by ring.
          setoid_replace (y + - inject_Z f) with r by (unfold r; ring). exact L1. }
      destruct (Qltb (1 # 2) r); [exists (f + 1)%Z; split; [lia|reflexivity]|].
      destruct (Z.even f); [exists f|exists (f + 1)%Z]; split; (lia || reflexivity). }
  destruct Hn as (n & Hn & ->). split.
  - apply Qle_shift_div_l; [reflexivity|]. rewrite Qmult_0_l.
    change 0 with (inject_Z 0). rewrite <- Zle_Qle. lia.
  - apply Qle_shift_div_r; [reflexivity|].
    setoid_replace (100 * 10) with (inject_Z 1000) by reflexivity.
    rewrite <- Zle_Qle. lia.
Qed.

Lemma ratio_percent_bounds (a t : nat) : (a <= t)%nat -> (0 < t)%nat ->
  0 <= inject_Z (Z.of_nat a) / inject_Z (Z.of_nat t) * 100 /\
  inject_Z (Z.of_nat a) / inject_Z (Z.of_nat t) * 100 <= 100.
Proof.
  intros Ha Ht.
  assert (Ht' : 0 < inject_Z (Z.of_nat t)) by (change 0 with (inject_Z 0); rewrite <- Zlt_Qlt; lia).
  split.
  - apply Qmult_le_0_compat; [|discriminate].
    apply Qle_shift_div_l; [exact Ht'|]. rewrite Qmult_0_l.
    change 0 with (inject_Z 0). rewrite <- Zle_Qle. lia.
  - setoid_replace 100 with (1 * 100) at 2 by reflexivity.
    apply Qmult_le_compat_r; [|discriminate].
    apply Qle_shift_div_r; [exact Ht'|]. rewrite Qmult_1_l. rewrite <- Zle_Qle. lia.
Qed.

(** For every zone reported by [/api/zones], the available count is at
    most the total, the percentage lies in [0, 100], and an empty zone has
    percentage 0. *)
Theorem zones_api_bounds (cfg : config) (clk : clock) (pd : parking_data) :
  Forall (fun zs => (zs_available zs <= zs_total zs)%nat /\
                    0 <= zs_percentage zs /\ zs_percentage zs <= 100 /\
                    (zs_total zs = O -> zs_percentage zs = 0))
         (get_zones_api cfg clk pd).
Proof.
  unfold get_zones_api. apply Forall_map. apply Forall_forall. intros z _.
  unfold zone_entry; simpl.
  set (zdf := filter (fun r => String.eqb (row_zone r) z) (get_parking_data cfg clk pd)).
  assert (Hle : (count_rows (has_status AVAILABLE) zdf <= List.length zdf)%nat)
    by apply filter_length_le.
  split; [exact Hle|].
  destruct (Nat.ltb_spec 0 (List.length zdf)) as [Hpos|Hz].
  - destruct (ratio_percent_bounds _ _ Hle Hpos) as [A B].
    destruct (py_round1_bounds _ A B) as [C D].
    split; [exact C|]. split; [exact D|]. lia.
  - split; [apply Qle_refl|]. split; [discriminate|]. reflexivity.
Qed.

(** Every hour at which the source's peak pricing applies is an hour
    for which [predict_occupancy] predicts "increasing". *)
Theorem peak_pricing_hours_predicted_busy (clk : clock) :
  is_peak_hour app_config clk = true -> predict_occupancy clk = increasing.
Proof.
  unfold is_peak_hour, predict_occupancy, app_config. cbn [PEAK_HOURS in_peak_windows]. set (h := now_hour clk).
  destruct (Nat.leb 7 h && Nat.ltb h 10)%bool eqn:E1.
  - apply andb_true_iff in E1 as [A B]. apply Nat.leb_le in A. apply Nat.ltb_lt in B.
    intros _. replace (Nat.leb 6 h && Nat.ltb h 10)%bool with true; [reflexivity|].
    symmetry. apply andb_true_iff. split; [apply Nat.leb_le|apply Nat.ltb_lt]; lia.
  - destruct (Nat.leb 17 h && Nat.ltb h 20)%bool eqn:E2; [|discriminate].
    apply andb_true_iff in E2 as [A B]. apply Nat.leb_le in A. apply Nat.ltb_lt in B.
    intros _. replace (Nat.leb 6 h && Nat.ltb h 10)%bool with false.
    2:{ symmetry. apply andb_false_iff. right. apply Nat.ltb_ge. lia. }
    replace (Nat.leb 16 h && Nat.ltb h 20)%bool with true; [reflexivity|].
    symmetry. apply andb_true_iff. split; [apply Nat.leb_le|apply Nat.ltb_lt]; lia.
Qed.

Lemma peak_pricing_hours_predicted_busy_witness :
  is_peak_hour app_config clock_eight = true /\ predict_occupancy clock_eight = increasing.
Proof. split; [reflexivity|apply peak_pricing_hours_predicted_busy; reflexivity]. Defined.

Lemma active_bookings_app (bs : list booking) (b : booking) :
  active_bookings (bs ++ [b]) = (active_bookings bs + active_ind b)%nat.
Proof.
  unfold active_bookings. rewrite filter_app, length_app. simpl.
  unfold active_ind. destruct (bk_status b); reflexivity.
Qed.

Lemma active_bookings_replace_first (booking_id : string) (b' : booking) (bs : list booking) (b : booking) :
  find_booking booking_id bs = Some b ->
  (active_bookings (replace_first booking_id b' bs) + active_ind b
   = active_bookings bs + active_ind b')%nat /\
  List.length (replace_first booking_id b' bs) = List.length bs.
Proof.
  unfold active_bookings. induction bs as [|x rest IH]; simpl; [discriminate|].
  destruct (String.eqb (bk_id x) booking_id) eqn:E.
  - intro H. injection H as ->. simpl. unfold active_ind.
    destruct (bk_status b), (bk_status b'); simpl; split; lia.
  - intro H. destruct (IH H) as [A B]. simpl. split; [|lia].
    destruct (bk_status x); simpl; lia.
Qed.

(** [/api/bookings] returns every booking when the status filter is
    absent or empty; with "active" (resp. "completed") it returns only
    active (resp. completed) bookings, and the two lists together have as
    many bookings as there are. *)
Theorem bookings_api_filter (bs : list booking) :
  get_bookings_api None bs = bs /\
  get_bookings_api (Some ""%string) bs = bs /\
  Forall (fun b => bk_status b = active) (get_bookings_api (Some "active"%string) bs) /\
  Forall (fun b => bk_status b = completed) (get_bookings_api (Some "completed"%string) bs) /\
  (List.length (get_bookings_api (Some "active"%string) bs)
   + List.length (get_bookings_api (Some "completed"%string) bs) = List.length bs)%nat.
Proof.
  split; [reflexivity|]. split; [reflexivity|]. unfold get_bookings_api; simpl.
  split; [|split].
  - apply Forall_forall. intros b Hb. apply filter_In in Hb as [_ Hb].
    destruct (bk_status b); [reflexivity|discriminate].
  - apply Forall_forall. intros b Hb. apply filter_In in Hb as [_ Hb].
    destruct (bk_status b); [discriminate|reflexivity].
  - induction bs as [|b rest IH]; simpl; [reflexivity|].
    destruct (bk_status b); simpl; lia.
Qed.

(** [/api/bookings] with a non-empty status filter other than "active"
    and "completed" returns no booking. *)
Theorem bookings_api_unknown_status (f : string) (bs : list booking) :
  f <> ""%string -> f <> "active"%string -> f <> "completed"%string ->
  get_bookings_api (Some f) bs = [].
Proof.
  intros H0 H1 H2. unfold get_bookings_api, truthy_str.
  destruct (String.eqb_spec f ""); [contradiction|]. cbn [negb].
  induction bs as [|b rest IH]; cbn [filter]; [reflexivity|].
  destruct (bk_status b); cbn [booking_status_str].
  - destruct (String.eqb_spec "active" f); [congruence|exact IH].
  - destruct (String.eqb_spec "completed" f); [congruence|exact IH].
Qed.

Lemma bookings_api_unknown_status_witness :
  "pending"%string <> ""%string /\ "pending"%string <> "active"%string /\
  "pending"%string <> "completed"%string /\
  get_bookings_api (Some "pending"%string) (bookings demo_world) = [].
Proof.
  split; [discriminate|]. split; [discriminate|]. split; [discriminate|].
  apply bookings_api_unknown_status; discriminate.
Defined.

(** A booking created through the API or the dashboard form adds one
    booking and one active booking to the counts of [/api/stats]. *)
Theorem new_booking_counted_active (cfg : config) (clk : clock) (rq : api_request)
    (n_clicks : nat) (form : booking_form) (w w' : world) (b : booking) :
  (create_booking_api cfg clk rq w = (w', api_created b) ->
   active_bookings (bookings w') = S (active_bookings (bookings w)) /\
   List.length (bookings w') = S (List.length (bookings w))) /\
  (confirm_booking cfg clk n_clicks form w = (w', form_confirmed b) ->
   active_bookings (bookings w') = S (active_bookings (bookings w)) /\
   List.length (bookings w') = S (List.length (bookings w))).
Proof.
  split.
  - unfold create_booking_api.
    destruct (rq_name rq), (rq_phone rq), (rq_vehicle rq), (rq_license rq), (rq_duration rq);
      try discriminate.
    destruct (api_select _ _) as [[sid zn]|]; [|discriminate].
    intro H. injection H as <- _. cbn [bookings].
    rewrite active_bookings_app, length_app. cbn [active_ind bk_status List.length]. lia.
  - unfold confirm_booking.
    destruct (Nat.ltb 0 n_clicks); [|discriminate].
    destruct (_ && _)%bool; [|discriminate].
    destruct (f_name form), (f_phone form), (f_vehicle form), (f_license form),
      (f_duration form); try discriminate.
    destruct (form_select _ _); [|discriminate].
    intro H. injection H as <- _. cbn [bookings].
    rewrite active_bookings_app, length_app. cbn [active_ind bk_status List.length]. lia.
Qed.

(** A successful checkout removes one booking from the active count of
    [/api/stats] and keeps the total number of bookings. *)
Theorem checkout_counted_inactive (clk : clock) (booking_id : string) (w w' : world) (b : booking) :
  checkout_booking_api clk booking_id w = (w', checkout_done b) ->
  active_bookings (bookings w) = S (active_bookings (bookings w')) /\
  List.length (bookings w') = List.length (bookings w).
Proof.
  unfold checkout_booking_api.
  destruct (find_booking booking_id (bookings w)) as [b0|] eqn:F; [|discriminate].
  destruct (bk_status b0) eqn:S0; [|discriminate].
  intro H. injection H as <- _. simpl.
  destruct (active_bookings_replace_first booking_id (complete_booking clk b0) _ _ F) as [A B].
  unfold active_ind in A. rewrite S0 in A. simpl in A. split; lia.
Qed.

Lemma checkout_counted_inactive_witness :
  exists w' b,
  checkout_booking_api clock_noon "BK0001"%string demo_world = (w', checkout_done b) /\
  active_bookings (bookings demo_world) = S (active_bookings (bookings w')) /\
  List.length (bookings w') = List.length (bookings demo_world).
Proof.
  do 2 eexists. split; [reflexivity|].
  eapply (checkout_counted_inactive clock_noon "BK0001"%string demo_world). reflexivity.
Defined.

Lemma find_booking_app_fresh (bs : list booking) (b : booking) :
  Forall (fun x => bk_id x <> bk_id b) bs -> find_booking (bk_id b) (bs ++ [b]) = Some b.
Proof.
  induction 1 as [|x rest Hx _ IH]; simpl.
  - rewrite String.eqb_refl. reflexivity.
  - destruct (String.eqb_spec (bk_id x) (bk_id b)); [contradiction|exact IH].
Qed.

(** In a reachable state, the booking created by [/api/book] is found
    by [/api/booking/<id>] under its new id. *)
Theorem created_booking_found (cfg : config) (clk : clock) (rq : api_request)
    (w w' : world) (b : booking) :
  reachable cfg w ->
  create_booking_api cfg clk rq w = (w', api_created b) ->
  get_booking_api (bk_id b) (bookings w') = Some b.
Proof.
  intros Hr. destruct (reachable_ids_invariant cfg w Hr) as [Hc Hids].
  unfold create_booking_api.
  destruct (rq_name rq), (rq_phone rq), (rq_vehicle rq), (rq_license rq), (rq_duration rq);
    try discriminate.
  destruct (api_select _ _) as [[sid zn]|]; [|discriminate].
  intro H. injection H as <- <-. cbn [bookings]. unfold get_booking_api.
  apply find_booking_app_fresh. cbn [bk_id].
  apply Forall_forall. intros x Hx Heq.
  assert (Hin : In (bk_id x) (map format_booking_id (seq 1 (booking_counter w - 1))))
    by (rewrite <- Hids; apply in_map; exact Hx).
  apply in_map_iff in Hin as (m & Hm & Hs). apply in_seq in Hs.
  rewrite Heq in Hm. apply format_booking_id_inj in Hm. lia.
Qed.

Lemma demo_reachable : reachable app_config demo_world.
Proof.
  unfold demo_world, tick. eapply reach_step; [|apply step_slots].
  unfold demo_booked, initial_world. eapply reach_step; [apply reach_init|apply step_api].
Qed.

Lemma created_booking_found_witness :
  exists w' b,
  reachable app_config demo_world /\
  create_booking_api app_config clock_eight demo_request demo_world = (w', api_created b) /\
  get_booking_api (bk_id b) (bookings w') = Some b.
Proof.
  do 2 eexists. split; [exact demo_reachable|]. split; [reflexivity|].
  eapply (created_booking_found app_config clock_eight demo_request demo_world);
    [exact demo_reachable|reflexivity].
Defined.

(** Checking out the same booking a second time, at any time, is
    answered "Booking is not active" and changes nothing. *)
Theorem checkout_twice_not_active (clk clk' : clock) (booking_id : string)
    (w w' : world) (b : booking) :
  checkout_booking_api clk booking_id w = (w', checkout_done b) ->
  checkout_booking_api clk' booking_id w' = (w', checkout_not_active).
Proof.
  unfold checkout_booking_api at 1.
  destruct (find_booking booking_id (bookings w)) as [b0|] eqn:F; [|discriminate].
  destruct (bk_status b0); [|discriminate].
  intro H. injection H as <- _.
  unfold checkout_booking_api. cbn [bookings].
  rewrite (find_replace_first booking_id (complete_booking clk b0) (bookings w) b0 F)
    by (exact (find_booking_id booking_id (bookings w) b0 F)).
  reflexivity.
Qed.

Lemma checkout_twice_not_active_witness :
  exists w' b,
  checkout_booking_api clock_noon "BK0001"%string demo_world = (w', checkout_done b) /\
  checkout_booking_api clock_eight "BK0001"%string w' = (w', checkout_not_active).
Proof.
  do 2 eexists. split; [reflexivity|].
  eapply (checkout_twice_not_active clock_noon clock_eight "BK0001"%string demo_world). reflexivity.
Defined.

Lemma filter_nil_iff {A : Type} (p : A -> bool) (l : list A) :
  filter p l = [] <-> Forall (fun x => p x = false) l.
Proof.
  induction l as [|x rest IH]; simpl; [split; auto|].
  destruct (p x) eqn:E; split; intro H.
  - discriminate.
  - inversion H; congruence.
  - constructor; [exact E|apply IH; exact H].
  - apply IH. inversion H; assumption.
Qed.

Lemma api_select_none (zone_ : option string) (rows : list row) :
  api_select zone_ rows = None <-> rows = [].
Proof.
  unfold api_select. destruct rows as [|first rest]; [tauto|].
  split; [|discriminate].
  destruct zone_ as [z|]; [|discriminate].
  destruct (truthy_str (Some z)); [destruct (filter _ _)|]; discriminate.
Qed.

(** A booking request that creates no booking leaves the state
    unchanged; it is refused for missing fields exactly when one of name,
    phone, vehicle type, licence plate and duration is absent, and with "No
    slots available" exactly when all are present and no slot has the
    status AVAILABLE. *)
Theorem create_booking_refusals (cfg : config) (clk : clock) (rq : api_request) (w : world) :
  let res := create_booking_api cfg clk rq w in
  match snd res with api_created _ => True | _ => fst res = w end /\
  (snd res = api_missing_fields <->
   rq_name rq = None \/ rq_phone rq = None \/ rq_vehicle rq = None \/
   rq_license rq = None \/ rq_duration rq = None) /\
  (snd res = api_no_slots <->
   rq_name rq <> None /\ rq_phone rq <> None /\ rq_vehicle rq <> None /\
   rq_license rq <> None /\ rq_duration rq <> None /\
   Forall (fun r => row_status_of r <> AVAILABLE) (get_parking_data cfg clk (parking w))).
Proof.
  cbv zeta. unfold create_booking_api.
  destruct (rq_name rq), (rq_phone rq), (rq_vehicle rq), (rq_license rq), (rq_duration rq);
    cbn [fst snd];
    try (split; [reflexivity|]; split; [split; [intros _; tauto|reflexivity]|];
         split; [discriminate|]; intuition congruence).
  assert (Hno : filter (has_status AVAILABLE) (get_parking_data cfg clk (parking w)) = [] <->
                Forall (fun r => row_status_of r <> AVAILABLE) (get_parking_data cfg clk (parking w))).
  { rewrite filter_nil_iff. split; intro H; eapply Forall_impl; try exact H;
      intros r Hr; unfold has_status in *; destruct (row_status_of r); simpl in *; congruence. }
  destruct (api_select _ _) as [[sid zn]|] eqn:Sel; cbn [fst snd].
  - split; [exact I|]. split; [split; [discriminate|intuition discriminate]|].
    split; [discriminate|]. intros (_ & _ & _ & _ & _ & H). apply Hno in H.
    apply (api_select_none (rq_zone rq)) in H. congruence.
  - split; [reflexivity|]. split; [split; [discriminate|intuition discriminate]|].
    split; [intros _|reflexivity].
    apply api_select_none in Sel. apply Hno in Sel. repeat split; try discriminate. exact Sel.
Qed.

(** A successful booking request appends the booking with id
    BK<counter>, status active, increments the counter, picks a slot with
    raw status "available" not under maintenance, reserves that slot with
    the vehicle type and plate of the booking, and changes no other slot. *)
Theorem create_booking_effect (cfg : config) (clk : clock) (rq : api_request)
    (w w' : world) (b : booking) :
  create_booking_api cfg clk rq w = (w', api_created b) ->
  bookings w' = bookings w ++ [b] /\
  booking_counter w' = S (booking_counter w) /\
  bk_id b = format_booking_id (booking_counter w) /\
  bk_status b = active /\
  (exists d, In (bk_slot b, d) (parking w) /\ status d = available /\ maintenance d = false) /\
  (forall k, get_slot k (parking w') =
     if String.eqb k (bk_slot b)
     then option_map (reserve_for (bk_vehicle b) (bk_license b)) (get_slot k (parking w))
     else get_slot k (parking w)).
Proof.
  intro H. pose proof (api_allocates_available_slot cfg clk rq w w' b H) as Hav.
  revert H. unfold create_booking_api.
  destruct (rq_name rq), (rq_phone rq), (rq_vehicle rq), (rq_license rq), (rq_duration rq);
    try discriminate.
  destruct (api_select _ _) as [[sid zn]|]; [|discriminate].
  intro H. injection H as <- <-. cbn [bookings booking_counter parking bk_id bk_status bk_slot
    bk_vehicle bk_license] in *.
  repeat split; [exact Hav|]. intro k. apply get_slot_update.
Qed.

Lemma create_booking_effect_witness :
  exists w' b,
  create_booking_api app_config clock_eight demo_request demo_world = (w', api_created b) /\
  bookings w' = bookings demo_world ++ [b] /\
  booking_counter w' = S (booking_counter demo_world) /\
  bk_id b = format_booking_id (booking_counter demo_world) /\
  bk_status b = active /\
  (exists d, In (bk_slot b, d) (parking demo_world) /\ status d = available /\ maintenance d = false) /\
  (forall k, get_slot k (parking w') =
     if String.eqb k (bk_slot b)
     then option_map (reserve_for (bk_vehicle b) (bk_license b)) (get_slot k (parking demo_world))
     else get_slot k (parking demo_world)).
Proof.
  do 2 eexists. split; [reflexivity|].
  eapply (create_booking_effect app_config clock_eight demo_request demo_world). reflexivity.
Defined.

(** Given the same state and values, a dashboard submission (clicked,
    fields filled) and an API request choose the same slot and id, and are
    refused for lack of slots together. The form stores the duration as
    entered and the cost [duration * rate]; the API stores [int(duration)]
    and the cost [round(int(duration) * rate, 2)], so for a fractional
    duration such as 2.5 the two bookings differ. *)
Theorem form_and_api_same_slot (cfg : config) (clk : clock) (n_clicks : nat)
    (form : booking_form) (w : world) :
  (0 < n_clicks)%nat ->
  (truthy_str (f_name form) && truthy_str (f_phone form) && truthy_str (f_vehicle form)
   && truthy_str (f_license form) && truthy_num (f_duration form))%bool = true ->
  match snd (confirm_booking cfg clk n_clicks form w),
        snd (create_booking_api cfg clk (request_of_form form) w) with
  | form_confirmed b1, api_created b2 =>
      bk_slot b1 = bk_slot b2 /\ bk_id b1 = bk_id b2 /\
      f_duration form = Some (bk_duration b1) /\
      bk_duration b2 = inject_Z (py_int (bk_duration b1)) /\
      bk_cost b1 = bk_duration b1 * get_dynamic_rate cfg clk /\
      bk_cost b2 = py_round2 (bk_duration b2 * get_dynamic_rate cfg clk)
  | form_no_slots, api_no_slots => True
  | _, _ => False
  end.
Proof.
  intros Hn Ht. unfold confirm_booking, create_booking_api. cbn [request_of_form rq_name rq_phone
    rq_vehicle rq_license rq_duration rq_zone].
  replace (Nat.ltb 0 n_clicks) with true by (symmetry; apply Nat.ltb_lt; exact Hn).
  rewrite Ht.
  destruct (f_name form) as [name|], (f_phone form) as [phone|], (f_vehicle form) as [vehicle|],
    (f_license form) as [license|], (f_duration form) as [duration|];
    try (simpl in Ht; rewrite ?andb_false_r in Ht; discriminate).
  cbn [option_map]. rewrite form_select_api.
  destruct (api_select (f_zone form) _) as [[sid zn]|]; cbn [option_map fst snd]; auto.
  cbn [bk_slot bk_id bk_duration bk_cost]. repeat split.
Qed.

Lemma form_and_api_same_slot_witness :
  (0 < 1)%nat /\
  (truthy_str (f_name demo_form) && truthy_str (f_phone demo_form) && truthy_str (f_vehicle demo_form)
   && truthy_str (f_license demo_form) && truthy_num (f_duration demo_form))%bool = true /\
  match snd (confirm_booking app_config clock_eight 1 demo_form demo_world),
        snd (create_booking_api app_config clock_eight (request_of_form demo_form) demo_world) with
  | form_confirmed b1, api_created b2 =>
      bk_slot b1 = bk_slot b2 /\ bk_id b1 = bk_id b2 /\
      f_duration demo_form = Some (bk_duration b1) /\
      bk_duration b2 = inject_Z (py_int (bk_duration b1)) /\
      bk_cost b1 = bk_duration b1 * get_dynamic_rate app_config clock_eight /\
      bk_cost b2 = py_round2 (bk_duration b2 * get_dynamic_rate app_config clock_eight)
  | form_no_slots, api_no_slots => True
  | _, _ => False
  end.
Proof.
  split; [lia|]. split; [reflexivity|].
  apply form_and_api_same_slot; [lia|reflexivity].
Defined.

Lemma py_round2_exact (x : Q) (k : Z) : x * 100 == inject_Z k -> py_round2 x == x.
Proof.
  intro Hk. unfold py_round2.
  assert (Hf : Qfloor (x * 100) = k).
  { apply Qfloor_unique; rewrite Hk; [apply Qle_refl|].
    rewrite <- (Qplus_0_r (inject_Z k)) at 1. apply Qplus_lt_r. reflexivity. }
  rewrite Hf.
  replace (Qltb (x * 100 - inject_Z k) (1 # 2)) with true.
  - apply (Qmult_inj_r _ _ 100); [discriminate|].
    rewrite Hk. field.
  - symmetry. apply Qltb_true. rewrite Hk.
    setoid_replace (inject_Z k - inject_Z k) with 0 by ring. reflexivity.
Qed.

(** With the source's rates, the cost stored by [/api/book] is exactly
    duration times the current rate: rounding to 2 decimals changes
    nothing. *)
Theorem api_cost_not_rounded (clk : clock) (rq : api_request) (w w' : world) (b : booking) :
  create_booking_api app_config clk rq w = (w', api_created b) ->
  bk_cost b == bk_duration b * get_dynamic_rate app_config clk.
Proof.
  unfold create_booking_api.
  destruct (rq_name rq), (rq_phone rq), (rq_vehicle rq), (rq_license rq), (rq_duration rq) as [dur|];
    try discriminate.
  destruct (api_select _ _) as [[sid zn]|]; [|discriminate].
  intro H. injection H as _ <-. cbn [bk_cost bk_duration].
  unfold get_dynamic_rate. destruct (is_peak_hour app_config clk); cbn [HOURLY_RATE PEAK_HOUR_MULTIPLIER app_config].
  - apply (py_round2_exact _ (dur * 7500)). rewrite inject_Z_mult. unfold inject_Z at 3. field.
  - apply (py_round2_exact _ (dur * 5000)). rewrite inject_Z_mult. unfold inject_Z at 3. field.
Qed.

Lemma api_cost_not_rounded_witness :
  exists w' b,
  create_booking_api app_config clock_eight demo_request demo_world = (w', api_created b) /\
  bk_cost b == bk_duration b * get_dynamic_rate app_config clock_eight.
Proof.
  do 2 eexists. split; [reflexivity|].
  eapply (api_cost_not_rounded clock_eight demo_request demo_world). reflexivity.
Defined.

Lemma first_available_row (cfg : config) (clk : clock) (pd : parking_data) (first : row) (rest : list row) :
  filter (has_status AVAILABLE) (get_parking_data cfg clk pd) = first :: rest ->
  exists pre d post,
    pd = pre ++ (slot_id first, d) :: post /\ row_zone first = zone d /\
    status d = available /\ maintenance d = false /\
    Forall (fun kd => maintenance (snd kd) = true \/ status (snd kd) = occupied) pre.
Proof.
  induction pd as [|[k d] pd IH]; simpl; [discriminate|].
  unfold has_status at 1. rewrite parking_row_status.
  destruct (maintenance d) eqn:Hm; [|destruct (status d) eqn:Hs]; simpl.
  - intro H. destruct (IH H) as (pre & d' & post & -> & Hz & Hs & Hm' & Hpre).
    exists ((k, d) :: pre), d', post. repeat split; auto.
  - intro H. injection H as <- _. exists [], d, pd.
    replace (slot_id (parking_row cfg clk k d)) with k
      by (unfold parking_row; rewrite Hm, Hs; destruct (entry_time d); reflexivity).
    replace (row_zone (parking_row cfg clk k d)) with (zone d)
      by (unfold parking_row; rewrite Hm, Hs; destruct (entry_time d); reflexivity).
    repeat split; auto.
  - intro H. destruct (IH H) as (pre & d' & post & -> & Hz & Hs' & Hm' & Hpre).
    exists ((k, d) :: pre), d', post. repeat split; auto.
Qed.

(** Without a (non-empty) zone, [/api/book] takes the first slot, in
    dict order, whose raw status is "available" and that is not under
    maintenance: every slot before it is occupied or under maintenance. *)
Theorem api_books_first_available_slot (cfg : config) (clk : clock) (rq : api_request)
    (w w' : world) (b : booking) :
  truthy_str (rq_zone rq) = false ->
  create_booking_api cfg clk rq w = (w', api_created b) ->
  exists pre d post,
    parking w = pre ++ (bk_slot b, d) :: post /\ bk_zone b = Some (zone d) /\
    status d = available /\ maintenance d = false /\
    Forall (fun kd => maintenance (snd kd) = true \/ status (snd kd) = occupied) pre.
Proof.
  intro Hz. unfold create_booking_api.
  destruct (rq_name rq), (rq_phone rq), (rq_vehicle rq), (rq_license rq), (rq_duration rq);
    try discriminate.
  destruct (filter (has_status AVAILABLE) (get_parking_data cfg clk (parking w)))
    as [|first rest] eqn:F; [discriminate|].
  assert (Sel : api_select (rq_zone rq) (first :: rest) = Some (slot_id first, row_zone first)).
  { unfold api_select. destruct (rq_zone rq) as [z0|]; [rewrite Hz|]; reflexivity. }
  rewrite Sel. intro H. injection H as _ <-. cbn [bk_slot bk_zone].
  destruct (first_available_row cfg clk (parking w) first rest F)
    as (pre & d & post & Hpd & Hzn & Hs & Hm & Hpre).
  exists pre, d, post. rewrite Hzn. auto.
Qed.

Lemma api_books_first_available_slot_witness :
  exists w' b,
  truthy_str (rq_zone demo_request) = false /\
  create_booking_api app_config clock_eight demo_request demo_world = (w', api_created b) /\
  exists pre d post,
    parking demo_world = pre ++ (bk_slot b, d) :: post /\ bk_zone b = Some (zone d) /\
    status d = available /\ maintenance d = false /\
    Forall (fun kd => maintenance (snd kd) = true \/ status (snd kd) = occupied) pre.
Proof.
  do 2 eexists. split; [reflexivity|]. split; [reflexivity|].
  eapply (api_books_first_available_slot app_config clock_eight demo_request demo_world);
    reflexivity.
Defined.

(** [simulate_parking_activity] keeps every key, zone, reservation flag
    and maintenance flag, leaves maintenance slots untouched, and never
    makes a reserved available slot occupied. *)
Theorem simulation_frame (clk : clock) (draws : string -> sim_draw) (pd : parking_data) :
  Forall2 (fun kd0 kd =>
             fst kd = fst kd0 /\ zone (snd kd) = zone (snd kd0) /\
             is_reserved (snd kd) = is_reserved (snd kd0) /\
             maintenance (snd kd) = maintenance (snd kd0) /\
             (maintenance (snd kd0) = true -> snd kd = snd kd0) /\
             (status (snd kd0) = available -> status (snd kd) = occupied ->
              is_reserved (snd kd0) = false))
          pd (simulate_parking_activity clk draws pd).
Proof.
  induction pd as [|[k d] rest IH]; simpl; constructor; [|exact IH].
  cbn [fst snd]. unfold simulate_slot.
  destruct (maintenance d) eqn:Hm; [repeat split; auto; congruence|].
  destruct (Qltb _ _); [|repeat split; auto; congruence].
  destruct (status d) eqn:Hs, (is_reserved d) eqn:Hr; unfold release_slot;
    repeat split; simpl; auto; try congruence.
Qed.

Lemma count_rows_three (p q m : row -> bool) (rows : list row) :
  Forall (fun r => ((if p r then 1 else 0) + (if q r then 1 else 0) + (if m r then 1 else 0) = 1)%nat) rows ->
  (count_rows p rows + count_rows q rows + count_rows m rows = List.length rows)%nat.
Proof.
  unfold count_rows. induction 1 as [|r rest Hr _ IH]; [reflexivity|]. simpl.
  destruct (p r), (q r), (m r); simpl in *; lia.
Qed.

Lemma parking_row_cases (cfg : config) (clk : clock) (sid : string) (d : slot) :
  let r := parking_row cfg clk sid d in
  ((if has_status OCCUPIED r then 1 else 0) + (if has_status AVAILABLE r then 1 else 0)
   + (if _maintenance r then 1 else 0) = 1)%nat /\
  (Qltb 0 (_fine r) = true -> has_status OCCUPIED r = true).
Proof.
  unfold parking_row, has_status.
  destruct (maintenance d), (status d), (entry_time d) as [e|]; try (split; [reflexivity|discriminate]).
  destruct (bill cfg clk e) as [[dh rev] fine]. split; reflexivity.
Qed.

(** The statistics count every slot exactly once as occupied,
    available or under maintenance, and count no more overstays than
    occupied slots. *)
Theorem statistics_partition (cfg : config) (clk : clock) (pd : parking_data)
    (turnover_draw wait_draw : Q) (st : statistics) :
  get_statistics cfg turnover_draw wait_draw (get_parking_data cfg clk pd) = Some st ->
  (st_occupied st + st_available st + st_maintenance st = List.length pd)%nat /\
  (overstay_count st <= st_occupied st)%nat.
Proof.
  intro H. unfold get_statistics in H.
  destruct (Nat.eqb (List.length (get_parking_data cfg clk pd)) 0); [discriminate|].
  destruct (TOTAL_SLOTS cfg); [discriminate|]. injection H as <-. cbn [st_occupied st_available
    st_maintenance overstay_count].
  split.
  - rewrite count_rows_three.
    + unfold get_parking_data. apply length_map.
    + unfold get_parking_data. apply Forall_map, Forall_forall. intros [k d] _.
      apply (parking_row_cases cfg clk k d).
  - apply count_rows_mono. unfold get_parking_data. apply Forall_map, Forall_forall.
    intros [k d] _. apply (parking_row_cases cfg clk k d).
Qed.

Lemma statistics_partition_witness :
  exists st,
  get_statistics app_config 0 0 (get_parking_data app_config clock_noon (parking demo_world)) = Some st /\
  (st_occupied st + st_available st + st_maintenance st = List.length (parking demo_world))%nat /\
  (overstay_count st <= st_occupied st)%nat.
Proof.
  eexists. split; [reflexivity|].
  apply (statistics_partition app_config clock_noon (parking demo_world) 0 0). reflexivity.
Defined.

Lemma admin_credentials_cases (u p : string) :
  dict_get ADMIN_CREDENTIALS u = Some p ->
  (u = "admin"%string /\ p = "admin123"%string) \/ (u = "operator"%string /\ p = "operator123"%string).
Proof.
  unfold ADMIN_CREDENTIALS, dict_get.
  destruct (String.eqb_spec "admin" u) as [<-|_]; [intro H; injection H as <-; auto|].
  destruct (String.eqb_spec "operator" u) as [<-|_]; [intro H; injection H as <-; auto|].
  discriminate.
Qed.

(** A click on the login button signs in (to the dashboard, with an
    authenticated session for that user) exactly when the password is the
    one [ADMIN_CREDENTIALS] holds for that username. *)
Theorem login_succeeds_iff_credentials (u p : string) (s : option session) :
  (exists r, handle_login (Some login_button) (Some u) (Some p) s
             = (set_to "/dashboard"%string,
                set_to {| authenticated := true; user := Some u; role := Some r |},
                set_to msg_empty))
  <-> dict_get ADMIN_CREDENTIALS u = Some p.
Proof.
  split.
  - unfold handle_login. cbn iota beta.
    destruct (truthy_str (Some u) && truthy_str (Some p))%bool; [|intros (r & H); discriminate].
    destruct (dict_get ADMIN_CREDENTIALS u) as [pw|] eqn:E; [|intros (r & H); discriminate].
    destruct (String.eqb_spec pw p) as [<-|]; [auto|intros (r & H); discriminate].
  - intro H. apply admin_credentials_cases in H as [[-> ->]|[-> ->]];
      eexists; reflexivity.
Qed.

(** [handle_login] outputs an authenticated session only by passing the
    incoming session through, or after a username and password that match
    [ADMIN_CREDENTIALS]. *)
Theorem login_authenticates_only_by_credentials (tr : option trigger)
    (username password : option string) (s : option session)
    (path : update string) (s' : session) (msg : update login_message) :
  handle_login tr username password s = (path, set_to s', msg) ->
  authenticated s' = true ->
  (exists s0, s = Some s0 /\ s' = s0) \/
  (exists u p, username = Some u /\ password = Some p /\
               dict_get ADMIN_CREDENTIALS u = Some p /\ user s' = Some u).
Proof.
  unfold handle_login.
  assert (Hdef : forall s'', (match s with Some s0 => s0 | None => logged_out end) = s'' ->
                 authenticated s'' = true -> exists s0, s = Some s0 /\ s'' = s0).
  { intros s'' <- A. destruct s as [s0|]; [eauto|discriminate]. }
  destruct tr as [[| |id]|]; try discriminate.
  - destruct username as [u|], password as [p|];
      try (intro H; injection H as _ E _; left; apply Hdef; assumption).
    destruct (truthy_str (Some u) && truthy_str (Some p))%bool;
      [|intro H; injection H as _ E _; left; apply Hdef; assumption].
    destruct (dict_get ADMIN_CREDENTIALS u) as [pw|] eqn:E;
      [|intro H; injection H as _ E' _; left; apply Hdef; assumption].
    destruct (String.eqb_spec pw p) as [<-|];
      [|intro H; injection H as _ E' _; left; apply Hdef; assumption].
    intros H _. injection H as _ <- _. right. exists u, pw. auto.
  - intro H. injection H as _ E _. left. apply Hdef; assumption.
Qed.

Lemma login_authenticates_only_by_credentials_witness :
  handle_login (Some login_button) (Some "operator"%string) (Some "operator123"%string) None
  = (set_to "/dashboard"%string,
     set_to {| authenticated := true; user := Some "operator"%string; role := Some "operator"%string |},
     set_to msg_empty) /\
  authenticated {| authenticated := true; user := Some "operator"%string; role := Some "operator"%string |} = true /\
  ((exists s0, (None : option session) = Some s0 /\
     {| authenticated := true; user := Some "operator"%string; role := Some "operator"%string |} = s0) \/
   (exists u p, Some "operator"%string = Some u /\ Some "operator123"%string = Some p /\
                dict_get ADMIN_CREDENTIALS u = Some p /\ Some "operator"%string = Some u)).
Proof.
  split; [reflexivity|]. split; [reflexivity|].
  apply (login_authenticates_only_by_credentials (Some login_button) (Some "operator"%string)
           (Some "operator123"%string) None (set_to "/dashboard"%string)
           {| authenticated := true; user := Some "operator"%string; role := Some "operator"%string |}
           (set_to msg_empty));
    reflexivity.
Defined.

(** [display_page] shows the admin application only for the path
    "/dashboard" with a session whose "authenticated" flag is set. *)
Theorem admin_app_needs_authenticated_dashboard (pathname : option string)
    (s : option session) (s' : session) :
  display_page pathname s = admin_app s' ->
  pathname = Some "/dashboard"%string /\ s = Some s' /\ authenticated s' = true.
Proof.
  unfold display_page. destruct pathname as [p|]; [|discriminate].
  destruct (String.eqb p "" || String.eqb p "/" || String.eqb p "/login")%bool; [discriminate|].
  destruct (String.eqb p "/booking"); [discriminate|].
  destruct (String.eqb_spec p "/dashboard") as [->|]; [|discriminate].
  destruct s as [s0|]; cbn [authenticated logged_out]; [|discriminate].
  destruct (authenticated s0) eqn:A; [|discriminate].
  intro H. injection H as <-. auto.
Qed.

Lemma admin_app_needs_authenticated_dashboard_witness :
  display_page (Some "/dashboard"%string) (Some admin_session) = admin_app admin_session /\
  Some "/dashboard"%string = Some "/dashboard"%string /\ Some admin_session = Some admin_session /\
  authenticated admin_session = true.
Proof.
  split; [reflexivity|].
  apply (admin_app_needs_authenticated_dashboard _ _ _). reflexivity.
Defined.

(** After a logout click the path is "/login" and the new session gets
    the login page, also on "/dashboard". *)
Theorem logout_locks_dashboard (n_clicks : nat) (s : option session)
    (path : string) (s' : session) :
  logout n_clicks s = (set_to path, set_to s') ->
  path = "/login"%string /\ display_page (Some path) (Some s') = login_page /\
  display_page (Some "/dashboard"%string) (Some s') = login_page.
Proof.
  unfold logout. destruct (Nat.ltb 0 n_clicks); [|discriminate].
  intro H. injection H as <- <-. auto.
Qed.

Lemma logout_locks_dashboard_witness :
  logout 1 (Some admin_session) = (set_to "/login"%string, set_to logged_out) /\
  "/login"%string = "/login"%string /\
  display_page (Some "/login"%string) (Some logged_out) = login_page /\
  display_page (Some "/dashboard"%string) (Some logged_out) = login_page.
Proof.
  split; [reflexivity|]. apply (logout_locks_dashboard 1 (Some admin_session)). reflexivity.
Defined.

Lemma zones_sum_available (rows : list row) :
  Forall (fun r => In (row_zone r) ZONES) rows ->
  (zone_available "Zone-A" rows + zone_available "Zone-B" rows + zone_available "Zone-C" rows
   + zone_available "Zone-D" rows = count_rows (has_status AVAILABLE) rows)%nat.
Proof.
  unfold zone_available, count_rows.
  induction 1 as [|r rest Hr _ IH]; [reflexivity|].
  cbn [filter]. unfold ZONES in Hr.
  destruct Hr as [E|[E|[E|[E|[]]]]]; rewrite <- E;
    destruct (has_status AVAILABLE r) eqn:Ha; simpl; rewrite ?Ha; simpl; lia.
Qed.

(** In every state of a run, the available counts of the four zones of
    [/api/zones] add up to the available count of the statistics. *)
Theorem run_zone_availability_adds_up (cfg : config) (clk : clock) (w : world)
    (turnover_draw wait_draw : Q) (st : statistics) :
  run cfg clk w ->
  get_statistics cfg turnover_draw wait_draw (get_parking_data cfg clk (parking w)) = Some st ->
  list_sum (map zs_available (get_zones_api cfg clk (parking w))) = st_available st.
Proof.
  intros Hr Hst. destruct (run_invariant cfg clk w Hr) as [Hz _].
  unfold get_statistics in Hst.
  destruct (Nat.eqb (List.length (get_parking_data cfg clk (parking w))) 0); [discriminate|].
  destruct (TOTAL_SLOTS cfg); [discriminate|].
  injection Hst as <-. cbn [st_available].
  assert (Hzones : Forall (fun r => In (row_zone r) ZONES) (get_parking_data cfg clk (parking w))).
  { assert (Hm : map (fun r => (slot_id r, row_zone r)) (get_parking_data cfg clk (parking w))
                 = initial_zones) by (rewrite slot_zones_rows; exact Hz).
    assert (Hall : Forall (fun p => In (snd p) ZONES) initial_zones)
      by (apply Forall_forall; intros p Hp; vm_compute in Hp;
          repeat (destruct Hp as [<-|Hp]; [vm_compute; tauto|]); destruct Hp).
    rewrite <- Hm in Hall. apply Forall_map in Hall. exact Hall. }
  rewrite <- (zones_sum_available _ Hzones).
  unfold get_zones_api, ZONES. cbn [map list_sum zs_available]. unfold zone_entry. cbn [zs_available].
  unfold zone_available, list_sum. cbn [fold_right]. lia.
Qed.

Lemma run_zone_availability_adds_up_witness :
  exists st,
  run app_config clock_noon demo_world /\
  get_statistics app_config 0 0 (get_parking_data app_config clock_noon (parking demo_world)) = Some st /\
  list_sum (map zs_available (get_zones_api app_config clock_noon (parking demo_world))) = st_available st.
Proof.
  eexists. split; [exact demo_run|]. split; [reflexivity|].
  apply (run_zone_availability_adds_up app_config clock_noon demo_world 0 0 _ demo_run). reflexivity.
Defined.

(** Whatever the random draws, at start-up P001 ... P035 are occupied,
    P036 ... P100 are available, and no slot is reserved or under
    maintenance. *)
Theorem initial_occupancy (clk : clock) (draws : nat -> init_draw) :
  map (fun kd => (fst kd, status (snd kd), is_reserved (snd kd), maintenance (snd kd)))
      (parking (initial_world clk draws))
  = map (fun i => (slot_key i, if Nat.ltb i 35 then occupied else available, false, false))
        (seq 0 (TOTAL_SLOTS app_config)).
Proof. vm_compute. reflexivity. Qed.

(* ------------------------------------------------------------------ *)
(** ** Checkout and occupancy in the runs of the application           *)

Lemma shared_slot_run : run app_config clock_noon shared_slot_world.
Proof.
  apply run_tick; [intro; simpl; discriminate|].
  apply run_checkout. apply run_api. apply run_api.
  apply run_init. intro; simpl; discriminate.
Qed.

(** C3 (code bug): checkout of an active booking sets its slot to
    available and unreserved but leaves the slot's entry time and customer
    id as they were, where the claim says they are cleared (the release in
    [simulate_parking_activity] does clear them). This happens in a run of
    the application: after two bookings share P036 and one is checked out,
    a vehicle is parked on P036; checking out the other booking then
    leaves P036 available with an entry time and a customer id. *)
Theorem checkout_keeps_entry_time :
  (forall (clk : clock) (booking_id : string) (w : world) (b : booking) (d : slot),
     find_booking booking_id (bookings w) = Some b -> bk_status b = active ->
     get_slot (bk_slot b) (parking w) = Some d ->
     exists d',
       get_slot (bk_slot b) (parking (fst (checkout_booking_api clk booking_id w))) = Some d' /\
       status d' = available /\ is_reserved d' = false /\
       entry_time d' = entry_time d /\ customer_id d' = customer_id d) /\
  run app_config clock_noon shared_slot_world /\
  option_map bk_slot (find_booking "BK0001" (bookings shared_slot_world)) = Some "P036"%string /\
  match checkout_booking_api clock_noon "BK0001" shared_slot_world with
  | (w', checkout_done _) =>
      exists d', get_slot "P036" (parking w') = Some d' /\
        status d' = available /\ entry_time d' <> None /\ customer_id d' <> None
  | _ => False
  end.
Proof.
  split; [|split; [exact shared_slot_run|split; [vm_compute; reflexivity|]]].
  - intros clk booking_id w b d F Ha Hd. unfold checkout_booking_api.
    rewrite F, Ha. cbn [fst parking].
    destruct (slot_exists (bk_slot b) (parking w)) eqn:X.
    + rewrite get_slot_update, String.eqb_refl, Hd. eexists. split; [reflexivity|].
      repeat split.
    + rewrite (get_slot_absent _ _ X) in Hd. discriminate Hd.
  - vm_compute. eexists. split; [reflexivity|].
    split; [reflexivity|]. split; discriminate.
Qed.

Lemma run_length (cfg : config) (clk : clock) (w : world) :
  run cfg clk w -> List.length (parking w) = TOTAL_SLOTS app_config.
Proof.
  intro Hr. destruct (run_invariant cfg clk w Hr) as [Hz _].
  apply (f_equal (@List.length _)) in Hz.
  unfold slot_zones, initial_zones in Hz. rewrite !length_map, length_seq in Hz.
  exact Hz.
Qed.

Lemma count_occupied_rows (cfg : config) (clk : clock) (pd : parking_data) :
  Forall (fun kd => maintenance (snd kd) = false) pd ->
  count_rows (has_status OCCUPIED) (get_parking_data cfg clk pd)
  = List.length (filter (fun kd => slot_occupied (snd kd)) pd).
Proof.
  unfold count_rows, get_parking_data.
  induction 1 as [|[k d] rest Hm _ IH]; [reflexivity|]. cbn [map filter snd] in *.
  unfold has_status at 1. rewrite parking_row_status, Hm. unfold slot_occupied.
  destruct (status d); cbn [row_status_eqb List.length]; rewrite IH; reflexivity.
Qed.

(** C5: in every state of a run, [get_statistics] on the dashboard's
    frame returns (no division by zero occurs: the capacity is the
    constant [TOTAL_SLOTS = 100], which is also the number of slots, so it
    is never zero and the zero-capacity case never arises); its occupancy
    rate is [occupied / TOTAL_SLOTS * 100] exactly, [occupied] being the
    number of slots whose status is occupied, and lies in [0, 100]. *)
Theorem occupancy_rate_in_runs (clk : clock) (w : world) (turnover_draw wait_draw : Q) :
  run app_config clk w ->
  TOTAL_SLOTS app_config = 100%nat /\
  List.length (parking w) = TOTAL_SLOTS app_config /\
  exists st,
    get_statistics app_config turnover_draw wait_draw
      (get_parking_data app_config clk (parking w)) = Some st /\
    st_occupied st = List.length (filter (fun kd => slot_occupied (snd kd)) (parking w)) /\
    occupancy_rate st
    = inject_Z (Z.of_nat (st_occupied st)) / inject_Z (Z.of_nat (TOTAL_SLOTS app_config)) * 100 /\
    0 <= occupancy_rate st /\ occupancy_rate st <= 100.
Proof.
  intro Hr. pose proof (run_length app_config clk w Hr) as Hlen.
  split; [reflexivity|]. split; [exact Hlen|].
  assert (Hm : Forall (fun kd => maintenance (snd kd) = false) (parking w)).
  { eapply Forall_impl; [|exact (run_slot_ok app_config clk w Hr)].
    intros kd (H & _). exact H. }
  assert (Hdf : List.length (get_parking_data app_config clk (parking w)) = 100%nat).
  { unfold get_parking_data. rewrite length_map. exact Hlen. }
  unfold get_statistics. rewrite Hdf. cbn [Nat.eqb TOTAL_SLOTS app_config].
  eexists. split; [reflexivity|]. cbn [st_occupied occupancy_rate].
  rewrite (count_occupied_rows app_config clk (parking w) Hm).
  split; [reflexivity|]. split; [reflexivity|].
  apply ratio_percent_bounds; [|lia].
  change 100%nat with (TOTAL_SLOTS app_config). rewrite <- Hlen. apply filter_length_le.
Qed.

Lemma occupancy_rate_in_runs_witness :
  run app_config clock_noon demo_world /\
  TOTAL_SLOTS app_config = 100%nat /\
  List.length (parking demo_world) = TOTAL_SLOTS app_config /\
  exists st,
    get_statistics app_config 0 0 (get_parking_data app_config clock_noon (parking demo_world))
    = Some st /\
    st_occupied st = List.length (filter (fun kd => slot_occupied (snd kd)) (parking demo_world)) /\
    occupancy_rate st
    = inject_Z (Z.of_nat (st_occupied st)) / inject_Z (Z.of_nat (TOTAL_SLOTS app_config)) * 100 /\
    0 <= occupancy_rate st /\ occupancy_rate st <= 100.
Proof.
  split; [exact demo_run|].
  exact (occupancy_rate_in_runs clock_noon demo_world 0 0 demo_run).
Defined.
